(** * Receipt entity decoding: a shallow embedding of the Python sources

    Embedded sources:
    - [src/replicate_deployment/predict.py]            (module [Predict])
    - [src/replicate_deployment/layoutlmv3/predict.py] (module [LayoutLMv3])
    - [src/client.py]                                  (module [Client])

    A Python [str] is a sequence of Unicode code points, so a string is a
    list of code points ([N]); a [dict] is a [gmap], which is the [dict]
    up to the order of its keys, as Python's [==] compares it; Python
    lists are lists; Python integers are [Z]. *)

From Stdlib Require Import ZArith QArith Lia Ascii String DecimalString.
From stdpp Require Import base option list gmap.

Local Open Scope list_scope.

(** ** Python strings *)

Abbreviation str := (list N).

(** An ASCII literal of the source, as code points. *)
Definition lit (s : string) : str :=
  N_of_ascii <$> list_ascii_of_string s.
Arguments lit s%_string.

(** The byte-level BPE word-boundary marker, U+0120. *)
Definition G_dot : str := [288%N].

(** ["\n"] *)
Definition nl : str := [10%N].

Module Py.

(** [str.isspace] on one code point (CPython's [_PyUnicode_IsWhitespace]);
    the same class is [\s] of [re] on [str] patterns. *)
Definition isspace (c : N) : bool :=
  ((9 <=? c) && (c <=? 13) || (28 <=? c) && (c <=? 32) ||
   (c =? 133) || (c =? 160) || (c =? 5760) ||
   (8192 <=? c) && (c <=? 8202) ||
   (c =? 8232) || (c =? 8233) || (c =? 8239) || (c =? 8287) ||
   (c =? 12288))%N.

(** [s.startswith(p)] *)
Fixpoint startswith (p s : str) : bool :=
  match p, s with
  | [], _ => true
  | _ :: _, [] => false
  | a :: p', b :: s' => (a =? b)%N && startswith p' s'
  end.

(** [s.replace(old, new)]: occurrences are found left to right and do
    not overlap; [skip] counts the characters of a matched occurrence
    that are still to be passed over. *)
Fixpoint replace_go (old new : str) (skip : nat) (s : str) : str :=
  match s with
  | [] => []
  | c :: s' =>
      match skip with
      | S k => replace_go old new k s'
      | O =>
          if startswith old s
          then new ++ replace_go old new (length old - 1) s'
          else c :: replace_go old new 0 s'
      end
  end.

Definition replace (old new s : str) : str :=
  match old with
  | [] => new ++ (s ≫= λ c, c :: new)
  | _ :: _ => replace_go old new 0 s
  end.

Fixpoint lstrip (s : str) : str :=
  match s with
  | c :: s' => if isspace c then lstrip s' else s
  | [] => []
  end.

Definition rstrip (s : str) : str := reverse (lstrip (reverse s)).

(** [s.strip()] *)
Definition strip (s : str) : str := rstrip (lstrip s).

(** [sep.join(parts)] *)
Fixpoint join (sep : str) (parts : list str) : str :=
  match parts with
  | [] => []
  | [p] => p
  | p :: rest => p ++ sep ++ join sep rest
  end.

(** [str(n)] for a non-negative integer, as an f-string prints it. *)
Definition str_of_nat (n : nat) : str :=
  lit (NilEmpty.string_of_uint (Nat.to_uint n)).

(** Truthiness of an [Optional[str]]: [None] and [""] are falsy. *)
Definition truthy (o : option str) : bool :=
  match o with
  | Some (_ :: _) => true
  | _ => false
  end.

(** [old in s] for strings: some occurrence of [old] inside [s]. *)
Fixpoint contains (old s : str) : bool :=
  startswith old s ||
  match s with
  | [] => false
  | _ :: s' => contains old s'
  end.

End Py.

(** ** The grouping pass: loop variables of [process_receipt] *)

Record state := State {
  entities : gmap (list N) (list (list N));
  current_entity : option (list N);
  current_text : list (list N)
}.

Definition init : state := State ∅ None [].

Record result := Result {
  r_entities : gmap (list N) (list (list N));
  r_formatted_text : list N;
  r_tokens : list (list N);
  r_predictions : list (list N)
}.

(** A tensor of the machine-learning library.  The routine never looks
    inside one: it finds it in a dictionary, moves it to the device and
    hands it on. *)
Inductive tensor : Type := Tensor (handle : N).

(** What the body of [process_receipt] does, up to its external calls:
    it returns, or it raises, or it calls
    - [extract_text_with_boxes] for the words and boxes of the OCR reader,
    - [self.tokenizer(words, boxes=boxes, ...)] for the encoded inputs,
    - [self.image_processor(image, ...)] for the image inputs,
    - [self.model(...)], whose logits [torch.argmax(...)[0]] turns into
      the predictions,
    - [self.model.config.id2label] for the label names,
    - [self.tokenizer.convert_ids_to_tokens(input_ids[0])] for the tokens.
    What happens inside the external calls is not modelled; what the
    routine does with their answers is. *)
Inductive prog (A : Type) : Type :=
| Ret (a : A)
| Raise
| ReadText (k : list (list N) * list (list Z) → prog A)
| Tokenize (words : list (list N)) (boxes : list (list Z))
    (k : gmap (list N) tensor → prog A)
| ProcessImage (k : gmap (list N) tensor → prog A)
| Infer (input_ids bbox attention_mask pixel_values : tensor)
    (k : list Z → prog A)
| Id2Label (k : gmap Z (list N) → prog A)
| ConvertIds (input_ids : tensor) (k : list (list N) → prog A).
Arguments Ret {A} a.
Arguments Raise {A}.
Arguments ReadText {A} k.
Arguments Tokenize {A} words boxes k.
Arguments ProcessImage {A} k.
Arguments Infer {A} input_ids bbox attention_mask pixel_values k.
Arguments Id2Label {A} k.
Arguments ConvertIds {A} input_ids k.

(** [a[:n]] *)
Definition slice_to {A} (n : nat) (a : list A) : list A := take n a.

(** ** [src/replicate_deployment/predict.py] *)
Module Predict.

Definition structural_tokens : list str :=
  [lit "[CLS]"; lit "[SEP]"; lit "[PAD]"].

Definition is_structural (token : str) : bool :=
  bool_decide (token ∈ structural_tokens).

(** [current_entity.replace("B-", "").replace("I-", "")] *)
Definition entity_type (current_entity : str) : str :=
  Py.replace (lit "I-") [] (Py.replace (lit "B-") [] current_entity).

(** [token.replace("Ġ", " ").strip()] *)
Definition clean (token : str) : str :=
  Py.strip (Py.replace G_dot (lit " ") token).

(** The three statements that save an accumulated entity:
    [[
      entity_type = current_entity.replace("B-", "").replace("I-", "")
      if entity_type not in entities:
          entities[entity_type] = []
      entities[entity_type].append(" ".join(current_text))
    ]] *)
Definition save_entity (entities : gmap (list N) (list (list N)))
    (current_entity : str) (current_text : list str)
    : gmap (list N) (list (list N)) :=
  let entity_type := entity_type current_entity in
  let entities :=
    if bool_decide (entities !! entity_type = None)
    then <[entity_type := []]> entities else entities in
  <[entity_type :=
      default [] (entities !! entity_type) ++ [Py.join (lit " ") current_text]]>
    entities.

(** [if current_entity: <save>] *)
Definition save_pending (st : state) : gmap (list N) (list (list N)) :=
  match current_entity st with
  | Some c =>
      if Py.truthy (Some c)
      then save_entity (entities st) c (current_text st)
      else entities st
  | None => entities st
  end.

(** One iteration of [for token, label in zip(tokens, predicted_labels)]. *)
Definition group_step (st : state) (tl : str * str) : state :=
  let '(token, label) := tl in
  if is_structural token then st
  else if Py.startswith (lit "B-") label then
    State (save_pending st) (Some label) [clean token]
  else if Py.startswith (lit "I-") label
          && Py.truthy (current_entity st)
          && bool_decide
               (Some (Py.replace (lit "I-") [] label)
                = Py.replace (lit "B-") [] <$> current_entity st) then
    State (entities st) (current_entity st) (current_text st ++ [clean token])
  else
    State (save_pending st) None [].

Definition group_loop (pairs : list (str * str)) : state :=
  fold_left group_step pairs init.

(** The loop followed by "Save last entity". *)
Definition group_entities (pairs : list (str * str))
    : gmap (list N) (list (list N)) :=
  save_pending (group_loop pairs).

(** "Format output": the formatted lines; [None] is the [IndexError] of
    [entities[...][0]] on an empty list. *)
Definition format_lines (entities : gmap (list N) (list (list N)))
    : option (list str) :=
  let formatted_lines : list str := [] in
  formatted_lines ←
    match entities !! lit "STORE" with
    | Some vs => v ← head vs; Some (formatted_lines ++ [lit "# " ++ v])
    | None => Some formatted_lines
    end;
  formatted_lines ←
    match entities !! lit "DATE" with
    | Some vs => v ← head vs; Some (formatted_lines ++ [lit "Date: " ++ v])
    | None => Some formatted_lines
    end;
  let formatted_lines :=
    match entities !! lit "ITEM" with
    | Some vs =>
        fold_left (λ lines item, lines ++ [lit "- " ++ item]) vs
          (formatted_lines ++ [nl ++ lit "## Items"])
    | None => formatted_lines
    end in
  let formatted_lines :=
    match entities !! lit "PRICE" with
    | Some vs =>
        fold_left (λ lines price, lines ++ [lit "- " ++ price]) vs
          (formatted_lines ++ [nl ++ lit "## Prices"])
    | None => formatted_lines
    end in
  match entities !! lit "TOTAL" with
  | Some vs => v ← head vs; Some (formatted_lines ++ [nl ++ lit "## Total: " ++ v])
  | None => Some formatted_lines
  end.

Definition no_entities_message : str := lit "No structured entities detected.".

(** ["\n".join(formatted_lines) if formatted_lines else "No structured ..."] *)
Definition formatted_text (formatted_lines : list str) : str :=
  match formatted_lines with
  | [] => no_entities_message
  | _ :: _ => Py.join nl formatted_lines
  end.

(** Grouping, formatting and the returned dictionary. *)
Definition decode (tokens predicted_labels : list str) : prog result :=
  let entities := group_entities (zip tokens predicted_labels) in
  match format_lines entities with
  | Some formatted_lines =>
      Ret (Result entities (formatted_text formatted_lines)
             (slice_to 50 tokens) (slice_to 50 predicted_labels))
  | None => Raise
  end.

(** From the model call on.  A key that the dictionary lacks raises
    [KeyError]; [.to(self.device)] leaves every tensor what it is.
    [[
      outputs = self.model(input_ids=encoded_inputs["input_ids"],
                           bbox=encoded_inputs["bbox"],
                           attention_mask=encoded_inputs["attention_mask"],
                           pixel_values=image_inputs["pixel_values"])
      predictions = torch.argmax(outputs.logits, dim=-1)[0].cpu().numpy()
      id2label = self.model.config.id2label
      tokens = self.tokenizer.convert_ids_to_tokens(encoded_inputs["input_ids"][0])
      predicted_labels = [id2label.get(pred, "O") for pred in predictions]
    ]] *)
Definition run_model (encoded_inputs image_inputs : gmap (list N) tensor)
    : prog result :=
  match encoded_inputs !! lit "input_ids" with
  | None => Raise
  | Some input_ids =>
      match encoded_inputs !! lit "bbox" with
      | None => Raise
      | Some bbox =>
          match encoded_inputs !! lit "attention_mask" with
          | None => Raise
          | Some attention_mask =>
              match image_inputs !! lit "pixel_values" with
              | None => Raise
              | Some pixel_values =>
                  Infer input_ids bbox attention_mask pixel_values
                    (λ predictions,
                      Id2Label (λ id2label,
                        ConvertIds input_ids (λ tokens,
                          let predicted_labels :=
                            (λ pred, default (lit "O") (id2label !! pred))
                              <$> predictions in
                          decode tokens predicted_labels)))
              end
          end
      end
  end.

(** The tokenizer call, the image processor call and what follows. *)
Definition inference (words : list str) (boxes : list (list Z))
    : prog result :=
  Tokenize words boxes (λ encoded_inputs,
    ProcessImage (λ image_inputs, run_model encoded_inputs image_inputs)).

(** [process_receipt(self, image)]: the OCR reader supplies the words
    and boxes, the tokenizer and the model the tokens and labels. *)
Definition process_receipt : prog result :=
  ReadText (λ '(words, boxes),
    if bool_decide (words = [])
    then Ret (Result ∅ (lit "No text detected in image.") [] [])
    else inference words boxes).

End Predict.

(** ** [src/replicate_deployment/layoutlmv3/predict.py] *)
Module LayoutLMv3.

Definition structural_tokens : list str :=
  [lit "[CLS]"; lit "[SEP]"; lit "[PAD]"].

Definition is_structural (token : str) : bool :=
  bool_decide (token ∈ structural_tokens).

(** [current_entity.replace("B-", "").replace("I-", "")] *)
Definition entity_type (current_entity : str) : str :=
  Py.replace (lit "I-") [] (Py.replace (lit "B-") [] current_entity).

(** [token.replace("Ġ", " ").strip()] *)
Definition clean (token : str) : str :=
  Py.strip (Py.replace G_dot (lit " ") token).

(** The three statements that save an accumulated entity:
    [[
      entity_type = current_entity.replace("B-", "").replace("I-", "")
      if entity_type not in entities:
          entities[entity_type] = []
      entities[entity_type].append(" ".join(current_text))
    ]] *)
Definition save_entity (entities : gmap (list N) (list (list N)))
    (current_entity : str) (current_text : list str)
    : gmap (list N) (list (list N)) :=
  let entity_type := entity_type current_entity in
  let entities :=
    if bool_decide (entities !! entity_type = None)
    then <[entity_type := []]> entities else entities in
  <[entity_type :=
      default [] (entities !! entity_type) ++ [Py.join (lit " ") current_text]]>
    entities.

(** [if current_entity: <save>] *)
Definition save_pending (st : state) : gmap (list N) (list (list N)) :=
  match current_entity st with
  | Some c =>
      if Py.truthy (Some c)
      then save_entity (entities st) c (current_text st)
      else entities st
  | None => entities st
  end.

(** One iteration of [for token, label in zip(tokens, predicted_labels)]. *)
Definition group_step (st : state) (tl : str * str) : state :=
  let '(token, label) := tl in
  if is_structural token then st
  else if Py.startswith (lit "B-") label then
    State (save_pending st) (Some label) [clean token]
  else if Py.startswith (lit "I-") label
          && Py.truthy (current_entity st)
          && bool_decide
               (Some (Py.replace (lit "I-") [] label)
                = Py.replace (lit "B-") [] <$> current_entity st) then
    State (entities st) (current_entity st) (current_text st ++ [clean token])
  else
    State (save_pending st) None [].

Definition group_loop (pairs : list (str * str)) : state :=
  fold_left group_step pairs init.

(** The loop followed by "Save last entity". *)
Definition group_entities (pairs : list (str * str))
    : gmap (list N) (list (list N)) :=
  save_pending (group_loop pairs).

(** "Format output": the formatted lines; [None] is the [IndexError] of
    [entities[...][0]] on an empty list. *)
Definition format_lines (entities : gmap (list N) (list (list N)))
    : option (list str) :=
  let formatted_lines : list str := [] in
  formatted_lines ←
    match entities !! lit "STORE" with
    | Some vs => v ← head vs; Some (formatted_lines ++ [lit "# " ++ v])
    | None => Some formatted_lines
    end;
  formatted_lines ←
    match entities !! lit "DATE" with
    | Some vs => v ← head vs; Some (formatted_lines ++ [lit "Date: " ++ v])
    | None => Some formatted_lines
    end;
  let formatted_lines :=
    match entities !! lit "ITEM" with
    | Some vs =>
        fold_left (λ lines item, lines ++ [lit "- " ++ item]) vs
          (formatted_lines ++ [nl ++ lit "## Items"])
    | None => formatted_lines
    end in
  let formatted_lines :=
    match entities !! lit "PRICE" with
    | Some vs =>
        fold_left (λ lines price, lines ++ [lit "- " ++ price]) vs
          (formatted_lines ++ [nl ++ lit "## Prices"])
    | None => formatted_lines
    end in
  match entities !! lit "TOTAL" with
  | Some vs => v ← head vs; Some (formatted_lines ++ [nl ++ lit "## Total: " ++ v])
  | None => Some formatted_lines
  end.

Definition no_entities_message : str := lit "No structured entities detected.".

(** ["\n".join(formatted_lines) if formatted_lines else "No structured ..."] *)
Definition formatted_text (formatted_lines : list str) : str :=
  match formatted_lines with
  | [] => no_entities_message
  | _ :: _ => Py.join nl formatted_lines
  end.

(** Grouping, formatting and the returned dictionary. *)
Definition decode (tokens predicted_labels : list str) : prog result :=
  let entities := group_entities (zip tokens predicted_labels) in
  match format_lines entities with
  | Some formatted_lines =>
      Ret (Result entities (formatted_text formatted_lines)
             (slice_to 50 tokens) (slice_to 50 predicted_labels))
  | None => Raise
  end.

(** From the model call on.  A key that the dictionary lacks raises
    [KeyError]; [.to(self.device)] leaves every tensor what it is.
    [[
      outputs = self.model(input_ids=encoded_inputs["input_ids"],
                           bbox=encoded_inputs["bbox"],
                           attention_mask=encoded_inputs["attention_mask"],
                           pixel_values=image_inputs["pixel_values"])
      predictions = torch.argmax(outputs.logits, dim=-1)[0].cpu().numpy()
      id2label = self.model.config.id2label
      tokens = self.tokenizer.convert_ids_to_tokens(encoded_inputs["input_ids"][0])
      predicted_labels = [id2label.get(pred, "O") for pred in predictions]
    ]] *)
Definition run_model (encoded_inputs image_inputs : gmap (list N) tensor)
    : prog result :=
  match encoded_inputs !! lit "input_ids" with
  | None => Raise
  | Some input_ids =>
      match encoded_inputs !! lit "bbox" with
      | None => Raise
      | Some bbox =>
          match encoded_inputs !! lit "attention_mask" with
          | None => Raise
          | Some attention_mask =>
              match image_inputs !! lit "pixel_values" with
              | None => Raise
              | Some pixel_values =>
                  Infer input_ids bbox attention_mask pixel_values
                    (λ predictions,
                      Id2Label (λ id2label,
                        ConvertIds input_ids (λ tokens,
                          let predicted_labels :=
                            (λ pred, default (lit "O") (id2label !! pred))
                              <$> predictions in
                          decode tokens predicted_labels)))
              end
          end
      end
  end.

(** The tokenizer call, the image processor call and what follows. *)
Definition inference (words : list str) (boxes : list (list Z))
    : prog result :=
  Tokenize words boxes (λ encoded_inputs,
    ProcessImage (λ image_inputs, run_model encoded_inputs image_inputs)).

(** [process_receipt(self, image, words, boxes)]: the caller supplies
    the OCR words and boxes; the tokenizer and the model supply the
    tokens and labels.  The image is only handed on to the model. *)
Definition process_receipt (words : list str) (boxes : list (list Z))
    : prog result :=
  if bool_decide (words = []) || bool_decide (boxes = [])
  then Ret (Result ∅ (lit "No text provided.") [] [])
  else if bool_decide (length words ≠ length boxes)
  then Ret (Result ∅
              (lit "Error: words (" ++ Py.str_of_nat (length words)
               ++ lit ") and boxes (" ++ Py.str_of_nat (length boxes)
               ++ lit ") count mismatch.") [] [])
  else inference words boxes.

End LayoutLMv3.

(** ** [src/client.py] *)
Module Client.

(** [a // b] and [a % b] on integers; [None] is [ZeroDivisionError]. *)
Definition floordiv (a b : Z) : option Z :=
  if bool_decide (b = 0%Z) then None else Some (a / b)%Z.

Definition pymod (a b : Z) : option Z :=
  if bool_decide (b = 0%Z) then None else Some (a mod b)%Z.

(** [max(...)] over a collection; [None] is the [ValueError] on an
    empty one. *)
Definition max_of (xs : list Z) : option Z :=
  match xs with
  | [] => None
  | x :: rest => Some (foldr Z.max x rest)
  end.

Definition len (s : str) : Z := Z.of_nat (length s).
Definition len_list (l : list str) : Z := Z.of_nat (length l).

(** [re.findall(r'\S+', text)]: the maximal runs of non-whitespace
    characters, left to right; [run] holds the current run, reversed. *)
Fixpoint findall_go (run : str) (text : str) : list str :=
  match text with
  | [] => match run with [] => [] | _ :: _ => [reverse run] end
  | c :: text' =>
      if Py.isspace c
      then match run with
           | [] => findall_go [] text'
           | _ :: _ => reverse run :: findall_go [] text'
           end
      else findall_go (c :: run) text'
  end.

Definition findall_nonspace (text : str) : list str := findall_go [] text.

Section Estimate.

(** [int(n ** 0.5)]: a floating-point power, truncated.  Its value is
    left open; the code only uses it under [max(1, _)]. *)
Variable int_pow_half : Z → Z.

(** The body of [for i, word in enumerate(words)], from index [i] on. *)
Fixpoint box_loop (image_width image_height words_per_line line_height
    char_width : Z) (i : Z) (words : list str) (boxes : list (list Z))
    : option (list (list Z)) :=
  match words with
  | [] => Some boxes
  | word :: rest =>
      line ← floordiv i words_per_line;
      pos_in_line ← pymod i words_per_line;
      let x0 := (pos_in_line * char_width * (len word + 1))%Z in
      let y0 := (line * line_height)%Z in
      let x1 := (x0 + len word * char_width)%Z in
      let y1 := (y0 + line_height)%Z in
      let x0 := Z.max 0 (Z.min x0 (image_width - 1)) in
      let y0 := Z.max 0 (Z.min y0 (image_height - 1)) in
      let x1 := Z.max (x0 + 1) (Z.min x1 image_width) in
      let y1 := Z.max (y0 + 1) (Z.min y1 image_height) in
      box_loop image_width image_height words_per_line line_height
        char_width (i + 1) rest (boxes ++ [[x0; y0; x1; y1]])
  end.

Definition extract_words_and_boxes (text : str)
    (image_width image_height : Z)
    : option (list str * list (list Z)) :=
  let words := findall_nonspace text in
  if bool_decide (words = []) then Some ([], [])
  else
    let words_per_line := Z.max 1 (int_pow_half (len_list words)) in
    num_lines ←
      floordiv (len_list words + words_per_line - 1) words_per_line;
    line_height ← floordiv image_height (Z.max num_lines 1);
    longest ← max_of (len <$> words);
    char_width ← floordiv image_width (Z.max longest 1);
    boxes ←
      box_loop image_width image_height words_per_line line_height
        char_width 0 words [];
    Some (words, boxes).

End Estimate.

End Client.

(** ** The specification's vocabulary

    Notions that the specification uses in words, written out so that its
    sentences can be compared with the code. *)
Module Spec.

(** The type of a BIO label: the label stripped of its ["B-"] or ["I-"]
    prefix. *)
Definition label_type (label : str) : str :=
  if Py.startswith (lit "B-") label || Py.startswith (lit "I-") label
  then drop 2 label else label.

(** A type name in which neither marker occurs. *)
Definition marker_free (T : str) : Prop :=
  Py.contains (lit "B-") T = false ∧ Py.contains (lit "I-") T = false.

(** A token text in which neither whitespace nor the word-boundary
    marker occurs. *)
Definition plain (w : str) : Prop :=
  Forall (λ c, Py.isspace c = false ∧ c ≠ 288%N) w.

(** The cleaned token text in the specification's words: the leading
    word-boundary marker stripped, surrounding whitespace trimmed. *)
Definition cleaned (token : str) : str :=
  Py.strip (if Py.startswith G_dot token then drop 1 token else token).

(** Appending [text] to the ordered list of strings kept under [type]. *)
Definition append_to (entities : gmap (list N) (list (list N)))
    (type text : str) : gmap (list N) (list (list N)) :=
  <[type := default [] (entities !! type) ++ [text]]> entities.

(** An entity whose first cleaned token is [first] is on file under
    [type]: the list kept there holds a text that begins with [first]. *)
Definition filed (entities : gmap (list N) (list (list N)))
    (type first : str) : Prop :=
  ∃ texts rest,
    entities !! type = Some texts
    ∧ Py.join (lit " ") (first :: rest) ∈ texts.

(** The accumulator [label] is open and began with the text [first]. *)
Definition pending (st : state) (label first : str) : Prop :=
  current_entity st = Some label ∧ ∃ rest, current_text st = first :: rest.

(** Every list kept in the mapping has an element. *)
Definition values_nonempty (entities : gmap (list N) (list (list N)))
    : Prop :=
  ∀ type texts, entities !! type = Some texts → texts ≠ [].

(** [label] is a ["B-"] label of a pair of [pairs] that is not skipped. *)
Definition opens (pairs : list (str * str)) (label : str) : Prop :=
  ∃ token,
    (token, label) ∈ pairs
    ∧ Predict.is_structural token = false
    ∧ Py.startswith (lit "B-") label = true.

(** Every key of the mapping, and the open accumulator, come from a
    ["B-"] label seen so far. *)
Definition keys_from (seen : list (str * str)) (st : state) : Prop :=
  (∀ k, is_Some (entities st !! k) →
     ∃ label, opens seen label ∧ k = Predict.entity_type label)
  ∧ (∀ c, current_entity st = Some c → opens seen c).

(** The start, end and padding markers of the tokenizer in use,
    [RobertaTokenizer]. *)
Definition tokenizer_markers : list str :=
  [lit "<s>"; lit "</s>"; lit "<pad>"].

Definition is_marker (token : str) : bool :=
  bool_decide (token ∈ tokenizer_markers).

(** The input with all pairs removed whose token is such a marker. *)
Definition without_markers (pairs : list (str * str)) : list (str * str) :=
  filter (λ tl, is_marker tl.1 = false) pairs.

(** The sections of the report, in the order the specification lists
    them. *)
Definition first_value (head_text : str) (values : option (list str))
    : list str :=
  match values with
  | Some (v :: _) => [head_text ++ v]
  | _ => []
  end.

Definition bulleted (title : str) (values : option (list str)) : list str :=
  match values with
  | Some vs => title :: ((λ v, lit "- " ++ v) <$> vs)
  | None => []
  end.

Definition sections (entities : gmap (list N) (list (list N))) : list str :=
  first_value (lit "# ") (entities !! lit "STORE")
  ++ first_value (lit "Date: ") (entities !! lit "DATE")
  ++ bulleted (nl ++ lit "## Items") (entities !! lit "ITEM")
  ++ bulleted (nl ++ lit "## Prices") (entities !! lit "PRICE")
  ++ first_value (nl ++ lit "## Total: ") (entities !! lit "TOTAL").

(** A line that does not begin with the ["N"] of the fixed message. *)
Definition starts_otherwise (line : str) : Prop :=
  ∃ c rest, line = c :: rest ∧ c ≠ 78%N.

(** None of the five reported types is present. *)
Definition nothing_to_report (entities : gmap (list N) (list (list N)))
    : Prop :=
  entities !! lit "STORE" = None ∧ entities !! lit "DATE" = None
  ∧ entities !! lit "ITEM" = None ∧ entities !! lit "PRICE" = None
  ∧ entities !! lit "TOTAL" = None.

(** A well-formed box inside a [width] by [height] image. *)
Definition box_ok (width height : Z) (box : list Z) : Prop :=
  ∃ x0 y0 x1 y1 : Z,
    box = [x0; y0; x1; y1]
    ∧ (0 ≤ x0 ∧ x0 < x1 ∧ x1 ≤ width)%Z
    ∧ (0 ≤ y0 ∧ y0 < y1 ∧ y1 ≤ height)%Z.

End Spec.

(** ** [extract_text_with_boxes] of [src/replicate_deployment/predict.py] *)
Module PredictOcr.

(** One entry of [ocr_reader.readtext(...)]: the four corner points, the
    text and the confidence.  Coordinates are integers or finite floats;
    [min], [max] and [int] are exact on both, so a coordinate is a
    rational. *)
Record ocr_item := OcrItem {
  bbox : list (Q * Q);
  text : list N;
  confidence : Q
}.

(** [int(x)]: truncation towards zero. *)
Definition int_of (x : Q) : Z := Z.quot (Qnum x) (Z.pos (Qden x)).

(** [min(xs)] and [max(xs)]: the first smallest and the first largest
    element; [None] is the [ValueError] on an empty list. *)
Definition min_of (xs : list Q) : option Q :=
  match xs with
  | [] => None
  | x :: rest => Some (fold_left (λ m y, if Qle_bool m y then m else y) rest x)
  end.

Definition max_of (xs : list Q) : option Q :=
  match xs with
  | [] => None
  | x :: rest => Some (fold_left (λ m y, if Qle_bool y m then m else y) rest x)
  end.

(** The body of [for (bbox, text, confidence) in results]. *)
Fixpoint collect_boxes (results : list ocr_item) (words : list str)
    (boxes : list (list Z)) : option (list str * list (list Z)) :=
  match results with
  | [] => Some (words, boxes)
  | item :: rest =>
      let x_coords := fst <$> bbox item in
      let y_coords := snd <$> bbox item in
      x0 ← min_of x_coords;
      y0 ← min_of y_coords;
      x1 ← max_of x_coords;
      y1 ← max_of y_coords;
      collect_boxes rest (words ++ [text item])
        (boxes ++ [[int_of x0; int_of y0; int_of x1; int_of y1]])
  end.

(** [extract_text_with_boxes(self, image)]: [ocr_reader] is [None] when
    EasyOCR could not be set up, else it stands for what [readtext]
    returns on this image; [None] as a result is an exception. *)
Definition extract_text_with_boxes (ocr_reader : option (list ocr_item))
    : option (list str * list (list Z)) :=
  match ocr_reader with
  | None => None
  | Some results => collect_boxes results [] []
  end.

(** [process_receipt] with its call of [extract_text_with_boxes] carried
    out. *)
Definition process_receipt (ocr_reader : option (list ocr_item))
    : prog result :=
  match Predict.process_receipt with
  | ReadText k =>
      match extract_text_with_boxes ocr_reader with
      | Some words_boxes => k words_boxes
      | None => Raise
      end
  | other => other
  end.

(** A box with ordered corners that encloses every corner point of the
    entry, truncated. *)
Definition encloses (item : ocr_item) (box : list Z) : Prop :=
  ∃ x0 y0 x1 y1 : Z,
    box = [x0; y0; x1; y1]
    ∧ (x0 ≤ x1)%Z ∧ (y0 ≤ y1)%Z
    ∧ Forall (λ point,
        (x0 ≤ int_of point.1 ≤ x1)%Z ∧ (y0 ≤ int_of point.2 ≤ y1)%Z)
        (bbox item).

End PredictOcr.

(** ** Values that come back from the hosted models *)

(** A value of the OCR model's output other than the cases the client
    tells apart: a string; a falsy value that is not a string ([None],
    [0], [[]]); or a truthy one, which can or cannot be sliced. *)
Inductive pyval : Type :=
| VStr (s : list N)
| VFalsy
| VTruthy (sliceable : bool).

(** ** [src/replicate_deployment/deepseekocr/predict.py] *)
Module DeepSeekOCR.

(** [predict], from the generated ids on: the prompt is cut off each
    row, the rows are decoded by the processor, and the first text is
    returned stripped.  [None] is the [IndexError] of [[0]]. *)
Definition predict (input_ids generated_ids : list (list Z))
    (batch_decode : list (list Z) → list str)
    : option (gmap (list N) pyval) :=
  let generated_ids_trimmed :=
    zip_with (λ in_ids out_ids, drop (length in_ids) out_ids)
      input_ids generated_ids in
  match batch_decode generated_ids_trimmed with
  | [] => None
  | output_text :: _ => Some {[ lit "text" := VStr (Py.strip output_text) ]}
  end.

End DeepSeekOCR.

(** ** [process_receipt] of [src/client.py] *)
Module Pipeline.

(** What [client.run] returns for the OCR model, as the client tells it
    apart: a dictionary, a string, or anything else, of which only its
    [str(...)] matters. *)
Inductive ocr_output : Type :=
| OutDict (d : gmap (list N) pyval)
| OutStr (s : list N)
| OutOther (as_str : list N).

(** [NotAString] is the exception raised where a text that is not a
    string is used as one: a [TypeError] from the slice or from
    [re.findall] (for a dictionary the slice may give a [KeyError]). *)
Inductive failure : Type :=
| ValueError (message : list N)
| NotAString
| ZeroDivisionError.

(** The value returned: one of the two dictionaries with an ["error"]
    key (their ["entities"] is the empty dictionary), or what the second
    model returned. *)
Inductive returned (R : Type) : Type :=
| ErrorDict (formatted_text error : list N)
| ModelResult (result : R).
Arguments ErrorDict {R} formatted_text error.
Arguments ModelResult {R} result.

Inductive outcome (R : Type) : Type :=
| Returns (r : returned R)
| Raises (e : failure).
Arguments Returns {R} r.
Arguments Raises {R} e.

(** The function up to its calls to the outside: the environment, the
    two hosted models and the image file. *)
Inductive cprog (R : Type) : Type :=
| Done (o : outcome R)
| Getenv (name : list N) (k : option (list N) → cprog R)
| RunOcr (model image_path : list N) (k : ocr_output → cprog R)
| OpenImage (image_path : list N) (k : Z * Z → cprog R)
| RunLayout (model image_path : list N) (words : list (list N))
    (boxes : list (list Z)) (k : R → cprog R).
Arguments Done {R} o.
Arguments Getenv {R} name k.
Arguments RunOcr {R} model image_path k.
Arguments OpenImage {R} image_path k.
Arguments RunLayout {R} model image_path words boxes k.

Section ProcessReceipt.

Context {R : Type}.
Variable int_pow_half : Z → Z.

(** The rest of the function once [ocr_text] is a non-empty string. *)
Definition with_text (image_path layoutlmv3_model : str) (ocr_text : str)
    : cprog R :=
  OpenImage image_path (λ '(width, height),
    match Client.extract_words_and_boxes int_pow_half ocr_text width height with
    | None => Done (Raises ZeroDivisionError)
    | Some (words, boxes) =>
        if bool_decide (words = [])
        then Done (Returns (ErrorDict (lit "No text detected in image.")
                              (lit "No words extracted from OCR")))
        else RunLayout layoutlmv3_model image_path words boxes
               (λ result, Done (Returns (ModelResult result)))
    end).

Definition process_receipt (image_path deepseekocr_model layoutlmv3_model : str)
    : cprog R :=
  Getenv (lit "REPLICATE_API_TOKEN") (λ api_token,
    if negb (Py.truthy api_token)
    then Done (Raises (ValueError
                 (lit "REPLICATE_API_TOKEN environment variable not set")))
    else
      RunOcr deepseekocr_model image_path (λ ocr_output,
        let ocr_text :=
          match ocr_output with
          | OutDict d => default (VStr []) (d !! lit "text")
          | OutStr s => VStr s
          | OutOther as_str => VStr as_str
          end in
        match ocr_text with
        | VStr [] | VFalsy =>
            Done (Returns (ErrorDict (lit "No text extracted from image.")
                             (lit "OCR returned empty result")))
        | VStr text => with_text image_path layoutlmv3_model text
        | VTruthy false => Done (Raises NotAString)
        | VTruthy true => OpenImage image_path (λ _, Done (Raises NotAString))
        end)).

End ProcessReceipt.

(** What the outside answers, and the calls made, in order. *)
Record world (R : Type) := World {
  api_token : option (list N);
  ocr_answer : ocr_output;
  image_size : Z * Z;
  layout_answer : list (list N) → list (list Z) → R
}.
Arguments World {R} api_token ocr_answer image_size layout_answer.
Arguments api_token {R} w.
Arguments ocr_answer {R} w.
Arguments image_size {R} w.
Arguments layout_answer {R} w.

Inductive call : Type :=
| CallGetenv (name : list N)
| CallOcr (model image_path : list N)
| CallOpenImage (image_path : list N)
| CallLayout (model image_path : list N) (words : list (list N))
    (boxes : list (list Z)).

Fixpoint run {R : Type} (w : world R) (p : cprog R) : list call * outcome R :=
  match p with
  | Done o => ([], o)
  | Getenv name k =>
      let '(calls, o) := run w (k (api_token w)) in (CallGetenv name :: calls, o)
  | RunOcr model image_path k =>
      let '(calls, o) := run w (k (ocr_answer w)) in
      (CallOcr model image_path :: calls, o)
  | OpenImage image_path k =>
      let '(calls, o) := run w (k (image_size w)) in
      (CallOpenImage image_path :: calls, o)
  | RunLayout model image_path words boxes k =>
      let '(calls, o) := run w (k (layout_answer w words boxes)) in
      (CallLayout model image_path words boxes :: calls, o)
  end.

End Pipeline.

(** ** Rows of the box estimate *)
Module Rows.

(** The upper edge the estimate gives to the words of text line [line],
    for lines of height [line_height] in an image of height
    [image_height]. *)
Definition row_top (image_height line_height line : Z) : Z :=
  Z.max 0 (Z.min (line * line_height) (image_height - 1)).

(** The upper edge [y0] of a box [[x0, y0, x1, y1]]. *)
Definition top (box : list Z) : option Z := box !! 1.

End Rows.

(** ** Entities written as tagged tokens *)
Module Bio.

(** An entity of type [T] made of the words [w0 :: ws], as the tokenizer
    and a faultless model present it: one word-initial token per word,
    the first labelled ["B-"T], the others ["I-"T]. *)
Definition encode_entity (entity : str * (str * list str))
    : list (str * str) :=
  let '(T, (w0, ws)) := entity in
  (G_dot ++ w0, lit "B-" ++ T) :: ((λ w, (G_dot ++ w, lit "I-" ++ T)) <$> ws).

(** The entities one after the other, each followed by [gap] tokens
    labelled ["O"]. *)
Definition encode (gap : list str) (entities : list (str * (str * list str)))
    : list (str * str) :=
  entities ≫= λ entity, encode_entity entity ++ ((λ t, (t, lit "O")) <$> gap).

(** The mapping the entities stand for: under each type, the texts of
    its entities in their order, the words joined by single spaces. *)
Definition collect (entities : list (str * (str * list str)))
    : gmap (list N) (list (list N)) :=
  fold_left
    (λ e '(T, (w0, ws)), Spec.append_to e T (Py.join (lit " ") (w0 :: ws)))
    entities ∅.

(** The number of texts kept in a mapping. *)
Definition count_texts (e : gmap (list N) (list (list N))) : nat :=
  map_fold (λ _ texts n, length texts + n) 0 e.

(** The number of pairs that are not skipped and start an entity. *)
Definition count_starts (pairs : list (str * str)) : nat :=
  length (filter (λ tl, Predict.is_structural tl.1 = false
                        ∧ Py.startswith (lit "B-") tl.2 = true) pairs).

End Bio.

(** * Facts about the string operations *)

Section PyFacts.

Lemma startswith_app (p s : str) : Py.startswith p (p ++ s) = true.
Proof.
  induction p as [|a p IH]; simpl; [done|].
  by rewrite N.eqb_refl, IH.
Qed.

Lemma startswith_inv (p s : str) :
  Py.startswith p s = true → ∃ t, s = p ++ t.
Proof.
  revert s; induction p as [|a p IH]; intros s H; simpl in *.
  - by exists s.
  - destruct s as [|b s]; [done|].
    apply andb_prop in H as [Hab Hps]. apply N.eqb_eq in Hab as ->.
    destruct (IH _ Hps) as [t ->]. by exists t.
Qed.

Lemma replace_go_skip (old new pre s : str) :
  Py.replace_go old new (length pre) (pre ++ s) = Py.replace_go old new 0 s.
Proof. induction pre as [|c pre IH]; simpl; [by destruct s|done]. Qed.

(** An occurrence at the front is replaced, and the scan resumes behind it. *)
Lemma replace_prefix (a : N) (old new s : str) :
  Py.replace (a :: old) new ((a :: old) ++ s)
  = new ++ Py.replace (a :: old) new s.
Proof.
  unfold Py.replace. change ((a :: old) ++ s) with (a :: (old ++ s)).
  cbn [Py.replace_go].
  change (a :: old ++ s) with ((a :: old) ++ s).
  rewrite startswith_app.
  replace (length (a :: old) - 1) with (length old) by (simpl; lia).
  by rewrite replace_go_skip.
Qed.

Lemma contains_cons_false (old : str) (c : N) (s : str) :
  Py.contains old (c :: s) = false →
  Py.startswith old (c :: s) = false ∧ Py.contains old s = false.
Proof. simpl. intros H. by apply orb_false_elim in H. Qed.

(** Without an occurrence, [replace] returns the string unchanged. *)
Lemma replace_absent (a : N) (old new s : str) :
  Py.contains (a :: old) s = false → Py.replace (a :: old) new s = s.
Proof.
  unfold Py.replace. induction s as [|c s IH]; [done|].
  intros [Hs Hc]%contains_cons_false.
  cbn [Py.replace_go]. rewrite Hs. f_equal. by apply IH.
Qed.

Lemma contains_occurrence (old pre suf : str) :
  Py.contains old (pre ++ old ++ suf) = true.
Proof.
  induction pre as [|c pre IH].
  - change ([] ++ old ++ suf) with (old ++ suf).
    destruct (old ++ suf) eqn:E; simpl.
    + by destruct old.
    + rewrite <- E, startswith_app. done.
  - change ((c :: pre) ++ old ++ suf) with (c :: (pre ++ old ++ suf)).
    cbn [Py.contains]. rewrite IH. apply orb_true_r.
Qed.

Lemma contains_inv (old s : str) :
  Py.contains old s = true → ∃ pre suf, s = pre ++ old ++ suf.
Proof.
  induction s as [|c s IH]; simpl.
  - rewrite orb_false_r. intros [t Ht]%startswith_inv.
    exists [], t. done.
  - intros [H|H]%orb_prop.
    + apply startswith_inv in H as [t Ht]. by exists [], t.
    + destruct (IH H) as (pre & suf & ->). by exists (c :: pre), suf.
Qed.

End PyFacts.

(** * Facts about the grouping pass *)

Section GroupingFacts.

Lemma lit_B : lit "B-" = [66%N; 45%N].
Proof. reflexivity. Qed.

Lemma lit_I : lit "I-" = [73%N; 45%N].
Proof. reflexivity. Qed.

(** On a ["B-"] label whose type holds no marker, the code's
    [entity_type] is the type. *)
Lemma entity_type_B (T : str) :
  Spec.marker_free T → Predict.entity_type (lit "B-" ++ T) = T.
Proof.
  intros [HB HI]. unfold Predict.entity_type.
  rewrite lit_B, lit_I in *.
  rewrite replace_prefix, app_nil_l.
  by rewrite (replace_absent _ _ _ _ HB), (replace_absent _ _ _ _ HI).
Qed.

Lemma replace_B_of_B (T : str) :
  Spec.marker_free T → Py.replace (lit "B-") [] (lit "B-" ++ T) = T.
Proof.
  intros [HB _]. rewrite lit_B in *.
  by rewrite replace_prefix, app_nil_l, (replace_absent _ _ _ _ HB).
Qed.

Lemma replace_I_of_I (T : str) :
  Spec.marker_free T → Py.replace (lit "I-") [] (lit "I-" ++ T) = T.
Proof.
  intros [_ HI]. rewrite lit_I in *.
  by rewrite replace_prefix, app_nil_l, (replace_absent _ _ _ _ HI).
Qed.

(** The two-statement update of the dictionary is one append. *)
Lemma save_entity_append (e : gmap (list N) (list (list N)))
    (c : str) (text : list str) :
  Predict.save_entity e c text
  = Spec.append_to e (Predict.entity_type c) (Py.join (lit " ") text).
Proof.
  unfold Predict.save_entity, Spec.append_to.
  case_bool_decide as Hk.
  - by rewrite lookup_insert_eq, insert_insert_eq, Hk.
  - done.
Qed.

Lemma save_pending_open (st : state) (T : str) :
  current_entity st = Some (lit "B-" ++ T) → Spec.marker_free T →
  Predict.save_pending st
  = Spec.append_to (entities st) T (Py.join (lit " ") (current_text st)).
Proof.
  intros Hc HT. unfold Predict.save_pending. rewrite Hc.
  change (Py.truthy (Some (lit "B-" ++ T))) with true. cbv iota.
  by rewrite save_entity_append, entity_type_B.
Qed.

Lemma save_pending_closed (st : state) :
  current_entity st = None → Predict.save_pending st = entities st.
Proof. intros Hc. unfold Predict.save_pending. by rewrite Hc. Qed.

(** Replacing a single character is a map over the string. *)
Lemma replace_char (a b : N) (s : str) :
  Py.replace [a] [b] s = (λ c, if (c =? a)%N then b else c) <$> s.
Proof.
  unfold Py.replace. induction s as [|c s IH]; [done|].
  cbn [Py.replace_go Py.startswith fmap list_fmap length].
  rewrite (N.eqb_sym a c). destruct (c =? a)%N; simpl.
  - f_equal. destruct s; [done|]. exact IH.
  - f_equal. exact IH.
Qed.

Lemma lstrip_plain (w : str) :
  Forall (λ c, Py.isspace c = false) w → Py.lstrip w = w.
Proof. destruct 1 as [|c w Hc _]; [done|]. simpl. by rewrite Hc. Qed.

Lemma strip_plain (w : str) :
  Forall (λ c, Py.isspace c = false) w → Py.strip w = w.
Proof.
  intros H. unfold Py.strip, Py.rstrip. rewrite (lstrip_plain w H).
  rewrite lstrip_plain; [apply reverse_involutive|].
  by apply Forall_reverse.
Qed.

(** On a word-initial token the cleaning leaves the word. *)
Lemma clean_word (w : str) :
  Spec.plain w → Predict.clean (G_dot ++ w) = w ∧ Predict.clean w = w.
Proof.
  intros H. unfold Predict.clean, G_dot.
  change (lit " ") with [32%N]. rewrite !replace_char.
  assert (Hmap : (λ c, if (c =? 288)%N then 32%N else c) <$> w = w).
  { induction H as [|c w [_ Hc] _ IH]; [done|]. cbn.
    apply N.eqb_neq in Hc. rewrite Hc. by f_equal. }
  assert (Hsp : Forall (λ c, Py.isspace c = false) w).
  { eapply Forall_impl; [exact H|]. by intros c [? _]. }
  split.
  - change ([288%N] ++ w) with (288%N :: w). rewrite fmap_cons, Hmap.
    change (Py.strip _) with (Py.rstrip (Py.lstrip w)).
    by apply strip_plain.
  - rewrite Hmap. by apply strip_plain.
Qed.

End GroupingFacts.

(** ** The two copies of the decoder agree

    What is proved below of [Predict] therefore holds of [LayoutLMv3]. *)

Section Agreement.

Lemma group_step_agree (st : state) (tl : str * str) :
  LayoutLMv3.group_step st tl = Predict.group_step st tl.
Proof.
  destruct tl as [token label].
  unfold LayoutLMv3.group_step, Predict.group_step.
  reflexivity.
Qed.

Lemma group_loop_agree (pairs : list (str * str)) :
  LayoutLMv3.group_loop pairs = Predict.group_loop pairs.
Proof.
  unfold LayoutLMv3.group_loop, Predict.group_loop. generalize init.
  induction pairs as [|tl pairs IH]; intros st; simpl; [done|].
  by rewrite group_step_agree, IH.
Qed.

Lemma group_entities_agree (pairs : list (str * str)) :
  LayoutLMv3.group_entities pairs = Predict.group_entities pairs.
Proof.
  unfold LayoutLMv3.group_entities, Predict.group_entities.
  by rewrite group_loop_agree.
Qed.

Lemma format_lines_agree (e : gmap (list N) (list (list N))) :
  LayoutLMv3.format_lines e = Predict.format_lines e.
Proof. reflexivity. Qed.

Lemma formatted_text_agree (lines : list str) :
  LayoutLMv3.formatted_text lines = Predict.formatted_text lines.
Proof. by destruct lines. Qed.

Lemma decode_agree (tokens labels : list str) :
  LayoutLMv3.decode tokens labels = Predict.decode tokens labels.
Proof.
  unfold LayoutLMv3.decode, Predict.decode.
  rewrite group_entities_agree, format_lines_agree.
  destruct (Predict.format_lines _); [|done].
  by rewrite formatted_text_agree.
Qed.

End Agreement.

(** * The rules of the grouping pass *)

(** The rule for a ["B-"] label, on types that hold no marker.  On a
    non-skipped pair whose label starts with
    ["B-"]: an open accumulator ["B-"T], with no marker inside [T], is
    first flushed, its texts joined by single spaces and appended to the
    list kept under [T]; with no accumulator open the mapping is left as
    it is; in both cases the new accumulator is the new label with the
    cleaned token text as its only element. *)
Theorem b_label_flushes_then_starts (st : state) (token label : str) :
  Predict.is_structural token = false →
  Py.startswith (lit "B-") label = true →
  (∀ T, current_entity st = Some (lit "B-" ++ T) → Spec.marker_free T →
     Predict.group_step st (token, label)
     = State
         (Spec.append_to (entities st) T (Py.join (lit " ") (current_text st)))
         (Some label) [Predict.clean token])
  ∧ (current_entity st = None →
     Predict.group_step st (token, label)
     = State (entities st) (Some label) [Predict.clean token])
  ∧ LayoutLMv3.group_step st (token, label)
    = Predict.group_step st (token, label).
Proof.
  intros Hs Hb. split; [|split; [|apply group_step_agree]];
    unfold Predict.group_step; rewrite Hs, Hb.
  - intros T Hc HT. by rewrite (save_pending_open st T Hc HT).
  - intros Hc. by rewrite (save_pending_closed st Hc).
Qed.

Lemma b_label_flushes_then_starts_witness :
  Predict.group_step (State ∅ (Some (lit "B-STORE")) [lit "ACME"; lit "Ltd"])
    (G_dot ++ lit "2024", lit "B-DATE")
  = State {[ lit "STORE" := [lit "ACME Ltd"] ]} (Some (lit "B-DATE")) [lit "2024"].
Proof.
  etransitivity.
  - apply (proj1 (b_label_flushes_then_starts
                    (State ∅ (Some (lit "B-STORE")) [lit "ACME"; lit "Ltd"])
                    (G_dot ++ lit "2024") (lit "B-DATE") eq_refl eq_refl)
             (lit "STORE")).
    + reflexivity.
    + split; reflexivity.
  - vm_compute. reflexivity.
Defined.

(** C1.  The code at an accumulator whose type holds a marker.  The open
    ["B-SUB-X"] has the type ["SUB-X"]; the key is derived by deleting
    every ["B-"] and ["I-"] of the label, not its prefix, and comes out
    as ["SUX"].  On the next ["B-"] label the text is filed under
    ["SUX"], and nothing is filed under ["SUB-X"]. *)
Theorem b_label_files_under_mangled_key :
  let pairs := [(lit "a", lit "B-SUB-X"); (lit "b", lit "B-Y")] in
  let st := Predict.group_loop [(lit "a", lit "B-SUB-X")] in
  current_entity st = Some (lit "B-SUB-X")
  ∧ Spec.label_type (lit "B-SUB-X") = lit "SUB-X"
  ∧ Predict.entity_type (lit "B-SUB-X") = lit "SUX"
  ∧ Predict.group_step st (lit "b", lit "B-Y")
    = State {[ lit "SUX" := [lit "a"] ]} (Some (lit "B-Y")) [lit "b"]
  ∧ Predict.group_entities pairs
    = {[ lit "SUX" := [lit "a"]; lit "Y" := [lit "b"] ]}
  ∧ Predict.group_entities pairs !! lit "SUB-X" = None
  ∧ LayoutLMv3.group_entities pairs = Predict.group_entities pairs.
Proof. repeat split; vm_compute; reflexivity. Qed.

(** C2 (as amended).  On a non-skipped pair labelled ["I-"T] while the
    accumulator ["B-"T] is open, with no marker inside [T], the cleaned
    token text is appended to the accumulator and the mapping is left as
    it is.  The cleaned text is the token with every word-boundary marker
    turned into a space and then trimmed; for a word-initial token, the
    marker followed by a word, it is the word. *)
Theorem i_label_continues (st : state) (token T : str) :
  Predict.is_structural token = false →
  current_entity st = Some (lit "B-" ++ T) →
  Spec.marker_free T →
  Predict.group_step st (token, lit "I-" ++ T)
  = State (entities st) (current_entity st)
      (current_text st ++ [Predict.clean token])
  ∧ Predict.clean token
    = Py.strip ((λ c, if (c =? 288)%N then 32%N else c) <$> token)
  ∧ (∀ w, Spec.plain w → Predict.clean (G_dot ++ w) = w)
  ∧ LayoutLMv3.group_step st (token, lit "I-" ++ T)
    = Predict.group_step st (token, lit "I-" ++ T).
Proof.
  intros Hs Hc HT. split; [|split; [|split; [|apply group_step_agree]]].
  - unfold Predict.group_step. rewrite Hs, Hc.
    change (Py.startswith (lit "B-") (lit "I-" ++ T)) with false.
    change (Py.startswith (lit "I-") (lit "I-" ++ T)) with true.
    change (Py.truthy (Some (lit "B-" ++ T))) with true.
    cbn [andb fmap option_fmap option_map].
    rewrite (replace_I_of_I T HT), (replace_B_of_B T HT).
    by rewrite bool_decide_eq_true_2.
  - unfold Predict.clean, G_dot. change (lit " ") with [32%N].
    by rewrite replace_char.
  - intros w Hw. by apply clean_word.
Qed.

Lemma i_label_continues_witness :
  Predict.group_step (State ∅ (Some (lit "B-STORE")) [lit "ACME"])
    (G_dot ++ lit "Ltd", lit "I-STORE")
  = State ∅ (Some (lit "B-STORE")) [lit "ACME"; lit "Ltd"].
Proof.
  etransitivity.
  - apply (proj1 (i_label_continues
                    (State ∅ (Some (lit "B-STORE")) [lit "ACME"])
                    (G_dot ++ lit "Ltd") (lit "STORE") eq_refl eq_refl
                    (conj eq_refl eq_refl))).
  - vm_compute. reflexivity.
Defined.

(** C2 as worded fails twice.  With the type ["WI-FI"] the label
    ["I-WI-FI"] has the type of the open ["B-WI-FI"], yet the token is
    not appended: the accumulator is filed and closed.  And a marker
    inside a token is turned into a space, not kept. *)
Lemma i_label_counterexample :
  let st := Predict.group_loop [(lit "a", lit "B-WI-FI")] in
  let st2 := Predict.group_loop [(lit "a", lit "B-X")] in
  (current_entity st = Some (lit "B-WI-FI")
   ∧ Spec.label_type (lit "I-WI-FI") = Spec.label_type (lit "B-WI-FI")
   ∧ Predict.group_step st (lit "b", lit "I-WI-FI")
     = State {[ lit "WFI" := [lit "a"] ]} None []
   ∧ Predict.group_step st (lit "b", lit "I-WI-FI")
     ≠ State (entities st) (current_entity st)
         (current_text st ++ [Spec.cleaned (lit "b")]))
  ∧ (current_text
       (Predict.group_step st2 (lit "b" ++ G_dot ++ lit "c", lit "I-X"))
     = [lit "a"; lit "b c"]
     ∧ Spec.cleaned (lit "b" ++ G_dot ++ lit "c") = lit "b" ++ G_dot ++ lit "c").
Proof.
  repeat split; try (vm_compute; reflexivity).
  intros H. apply (f_equal current_entity) in H.
  vm_compute in H. discriminate H.
Qed.

(** ** Entities are never lost *)

Section NeverLost.

Lemma append_to_filed (e : gmap (list N) (list (list N)))
    (k v type first : str) :
  Spec.filed e type first → Spec.filed (Spec.append_to e k v) type first.
Proof.
  intros (texts & rest & Hl & Hin). unfold Spec.filed, Spec.append_to.
  destruct (decide (k = type)) as [->|Hne].
  - exists (texts ++ [v]), rest. rewrite lookup_insert_eq, Hl. simpl.
    split; [done|]. apply elem_of_app. by left.
  - exists texts, rest. by rewrite lookup_insert_ne.
Qed.

Lemma save_pending_filed (st : state) (type first : str) :
  Spec.filed (entities st) type first →
  Spec.filed (Predict.save_pending st) type first.
Proof.
  intros H. unfold Predict.save_pending.
  destruct (current_entity st) as [c|]; [|done].
  destruct (Py.truthy (Some c)); [|done].
  rewrite save_entity_append. by apply append_to_filed.
Qed.

Lemma group_step_filed (st : state) (tl : str * str) (type first : str) :
  Spec.filed (entities st) type first →
  Spec.filed (entities (Predict.group_step st tl)) type first.
Proof.
  intros H. destruct tl as [token label]. unfold Predict.group_step.
  repeat case_match; simpl; auto using save_pending_filed.
Qed.

Lemma save_pending_pending (st : state) (T first : str) :
  Spec.pending st (lit "B-" ++ T) first →
  Spec.filed (Predict.save_pending st)
    (Predict.entity_type (lit "B-" ++ T)) first.
Proof.
  intros (Hc & rest & Ht). unfold Predict.save_pending. rewrite Hc.
  change (Py.truthy (Some (lit "B-" ++ T))) with true. cbv iota.
  rewrite save_entity_append, Ht. unfold Spec.filed, Spec.append_to.
  eexists _, rest. rewrite lookup_insert_eq. split; [done|].
  apply elem_of_app. right. by apply list_elem_of_singleton.
Qed.

(** A started entity stays open or is on file, whatever comes next. *)
Lemma group_step_started (st : state) (tl : str * str) (T first : str) :
  Spec.pending st (lit "B-" ++ T) first
  ∨ Spec.filed (entities st) (Predict.entity_type (lit "B-" ++ T)) first →
  Spec.pending (Predict.group_step st tl) (lit "B-" ++ T) first
  ∨ Spec.filed (entities (Predict.group_step st tl))
      (Predict.entity_type (lit "B-" ++ T)) first.
Proof.
  intros [Hp|Hf]; [|right; by apply group_step_filed].
  destruct tl as [token label]. unfold Predict.group_step.
  destruct (Predict.is_structural token); [by left|].
  destruct (Py.startswith (lit "B-") label).
  { right. simpl. by apply save_pending_pending. }
  match goal with |- context [if ?b then _ else _] => destruct b end.
  - left. destruct Hp as (Hc & rest & Ht). split; simpl; [done|].
    exists (rest ++ [Predict.clean token]). by rewrite Ht.
  - right. simpl. by apply save_pending_pending.
Qed.

Lemma fold_started (pairs : list (str * str)) (st : state) (T first : str) :
  Spec.pending st (lit "B-" ++ T) first
  ∨ Spec.filed (entities st) (Predict.entity_type (lit "B-" ++ T)) first →
  Spec.filed (Predict.save_pending (fold_left Predict.group_step pairs st))
    (Predict.entity_type (lit "B-" ++ T)) first.
Proof.
  revert st. induction pairs as [|tl pairs IH]; intros st H; simpl.
  - destruct H as [Hp|Hf].
    + by apply save_pending_pending.
    + by apply save_pending_filed.
  - apply IH. by apply group_step_started.
Qed.

(** Every entity started by a ["B-"] label is on file at the end. *)
Lemma started_is_filed (pre suf : list (str * str)) (token T : str) :
  Predict.is_structural token = false →
  Spec.filed (Predict.group_entities (pre ++ (token, lit "B-" ++ T) :: suf))
    (Predict.entity_type (lit "B-" ++ T)) (Predict.clean token).
Proof.
  intros Hs. unfold Predict.group_entities, Predict.group_loop.
  rewrite fold_left_app. cbn [fold_left]. apply fold_started. left.
  generalize (fold_left Predict.group_step pre init). intros st.
  unfold Predict.group_step. rewrite Hs.
  change (Py.startswith (lit "B-") (lit "B-" ++ T)) with true. cbv iota.
  split; simpl; [done|]. by exists [].
Qed.

End NeverLost.

(** The rule for the other labels, on types that hold no marker.  On a
    non-skipped pair whose label does not start
    with ["B-"]: with no accumulator open the mapping is left as it is;
    with ["B-"T] open, no marker inside [T], and a label that either does
    not start with ["I-"] or is ["I-"T'] for a marker-free [T'] other than
    [T], the accumulator is flushed under [T]; both times no entity is
    open afterwards.  The mapping returned is the mapping after the last
    pair with the still-open accumulator flushed.  Hence every entity
    started by a non-skipped ["B-"T] is on file under [T] in the end. *)
Theorem other_label_flushes_and_resets :
  (∀ (st : state) (token label : str),
     Predict.is_structural token = false →
     Py.startswith (lit "B-") label = false →
     current_entity st = None →
     Predict.group_step st (token, label) = State (entities st) None [])
  ∧ (∀ (st : state) (token label T : str),
       Predict.is_structural token = false →
       Py.startswith (lit "B-") label = false →
       current_entity st = Some (lit "B-" ++ T) →
       Spec.marker_free T →
       (Py.startswith (lit "I-") label = false
        ∨ ∃ T', label = lit "I-" ++ T' ∧ Spec.marker_free T' ∧ T' ≠ T) →
       Predict.group_step st (token, label)
       = State
           (Spec.append_to (entities st) T
              (Py.join (lit " ") (current_text st)))
           None [])
  ∧ (∀ pairs : list (str * str),
       let st := Predict.group_loop pairs in
       (current_entity st = None → Predict.group_entities pairs = entities st)
       ∧ (∀ T, current_entity st = Some (lit "B-" ++ T) →
            Spec.marker_free T →
            Predict.group_entities pairs
            = Spec.append_to (entities st) T
                (Py.join (lit " ") (current_text st))))
  ∧ (∀ (pre suf : list (str * str)) (token T : str),
       Predict.is_structural token = false →
       Spec.marker_free T →
       Spec.filed
         (Predict.group_entities (pre ++ (token, lit "B-" ++ T) :: suf))
         T (Predict.clean token))
  ∧ (∀ (st : state) (tl : str * str) (pairs : list (str * str)),
       LayoutLMv3.group_step st tl = Predict.group_step st tl
       ∧ LayoutLMv3.group_entities pairs = Predict.group_entities pairs).
Proof.
  split; [|split; [|split; [|split]]];
    [| | | |intros st tl pairs; split;
            [apply group_step_agree|apply group_entities_agree]].
  - intros st token label Hs Hb Hc. unfold Predict.group_step.
    rewrite Hs, Hb, Hc. rewrite andb_false_r. cbv iota.
    by rewrite (save_pending_closed st Hc).
  - intros st token label T Hs Hb Hc HT Hlabel.
    unfold Predict.group_step. rewrite Hs, Hb.
    rewrite (save_pending_open st T Hc HT).
    destruct Hlabel as [HI|(T' & -> & HT' & Hne)].
    + by rewrite HI.
    + rewrite Hc. cbn [fmap option_fmap option_map].
      rewrite (replace_I_of_I T' HT'), (replace_B_of_B T HT).
      rewrite bool_decide_eq_false_2; [|congruence].
      by rewrite andb_false_r.
  - intros pairs st. split.
    + apply save_pending_closed.
    + apply save_pending_open.
  - intros pre suf token T Hs HT.
    rewrite <- (entity_type_B T HT) at 2. by apply started_is_filed.
Qed.

Lemma other_label_flushes_and_resets_witness :
  Predict.group_step (State ∅ (Some (lit "B-STORE")) [lit "ACME"; lit "Ltd"])
    (lit ":", lit "O")
  = State {[ lit "STORE" := [lit "ACME Ltd"] ]} None []
  ∧ Spec.filed
      (Predict.group_entities
         ([(lit "x", lit "O")]
            ++ (G_dot ++ lit "pie", lit "B-" ++ lit "ITEM")
            :: [(lit "s", lit "I-ITEM"); (lit "9", lit "B-PRICE")]))
      (lit "ITEM") (lit "pie").
Proof.
  destruct other_label_flushes_and_resets as (_ & Hopen & _ & Hfiled & _).
  split.
  - etransitivity.
    + apply (Hopen (State ∅ (Some (lit "B-STORE")) [lit "ACME"; lit "Ltd"])
               (lit ":") (lit "O") (lit "STORE") eq_refl eq_refl eq_refl
               (conj eq_refl eq_refl) (or_introl eq_refl)).
    + vm_compute. reflexivity.
  - apply (Hfiled [(lit "x", lit "O")]
             [(lit "s", lit "I-ITEM"); (lit "9", lit "B-PRICE")]
             (G_dot ++ lit "pie") (lit "ITEM") eq_refl (conj eq_refl eq_refl)).
Defined.

(** C3.  The code at an ["I-"] label that holds a second marker.  The
    label ["I-I-X"] has the type ["I-X"], which is not the type ["X"] of
    the open ["B-X"]; the match test deletes every ["I-"] of the label
    and takes the two for equal, so that the token is appended and
    nothing is flushed or reset: the mapping ends with the one text
    ["a b"] where a flush at the mismatched label leaves ["a"]. *)
Theorem mismatched_i_label_is_appended :
  let pairs := [(lit "a", lit "B-X"); (lit "b", lit "I-I-X")] in
  let st := Predict.group_loop [(lit "a", lit "B-X")] in
  current_entity st = Some (lit "B-X")
  ∧ Py.startswith (lit "B-") (lit "I-I-X") = false
  ∧ Spec.label_type (lit "I-I-X") = lit "I-X"
  ∧ Spec.label_type (lit "B-X") = lit "X"
  ∧ Predict.group_step st (lit "b", lit "I-I-X")
    = State ∅ (Some (lit "B-X")) [lit "a"; lit "b"]
  ∧ Predict.group_entities pairs = {[ lit "X" := [lit "a b"] ]}
  ∧ LayoutLMv3.group_entities pairs = Predict.group_entities pairs.
Proof. repeat split; vm_compute; reflexivity. Qed.

(** ** Skipped tokens *)

Section Skipping.

Lemma fold_skip_structural (pairs : list (str * str)) (st : state) :
  fold_left Predict.group_step
    (filter (λ tl, Predict.is_structural tl.1 = false) pairs) st
  = fold_left Predict.group_step pairs st.
Proof.
  revert st. induction pairs as [|[token label] pairs IH]; intros st.
  - done.
  - rewrite filter_cons. cbn [fst fold_left]. case_decide as Hs.
    + cbn [fold_left]. apply IH.
    + rewrite IH. f_equal. unfold Predict.group_step.
      by destruct (Predict.is_structural token).
Qed.

(** Pairs whose token is one of the three tokens the code tests for
    can be removed from the input without changing the mapping. *)
Lemma skip_structural (pairs : list (str * str)) :
  Predict.group_entities
    (filter (λ tl, Predict.is_structural tl.1 = false) pairs)
  = Predict.group_entities pairs.
Proof.
  unfold Predict.group_entities, Predict.group_loop.
  by rewrite fold_skip_structural.
Qed.

End Skipping.

(** C4.  The tokens skipped are ["[CLS]"], ["[SEP]"] and ["[PAD]"]; the
    markers of the tokenizer in use are ["<s>"], ["</s>"] and ["<pad>"].
    On the input below the end and padding markers, labelled as a
    continuation, become part of the entity text; with the marker pairs
    removed the entity is ["ACME"] alone. *)
Theorem tokenizer_markers_not_skipped :
  let pairs :=
    [(lit "<s>", lit "O"); (G_dot ++ lit "ACME", lit "B-STORE");
     (lit "</s>", lit "I-STORE"); (lit "<pad>", lit "I-STORE")] in
  Spec.without_markers pairs = [(G_dot ++ lit "ACME", lit "B-STORE")]
  ∧ Predict.group_entities pairs
    = {[ lit "STORE" := [lit "ACME </s> <pad>"] ]}
  ∧ Predict.group_entities (Spec.without_markers pairs)
    = {[ lit "STORE" := [lit "ACME"] ]}
  ∧ Predict.group_entities (Spec.without_markers pairs)
    ≠ Predict.group_entities pairs
  ∧ LayoutLMv3.group_entities pairs = Predict.group_entities pairs.
Proof.
  repeat split; try (vm_compute; reflexivity).
  intros H. apply (f_equal (λ e, e !! lit "STORE")) in H.
  vm_compute in H. discriminate H.
Qed.

(** ** The values of the mapping are never empty lists *)

Section NonEmptyValues.

Lemma append_to_values_nonempty (e : gmap (list N) (list (list N))) (k v : str) :
  Spec.values_nonempty e → Spec.values_nonempty (Spec.append_to e k v).
Proof.
  intros He k' vs. unfold Spec.append_to.
  destruct (decide (k = k')) as [->|Hne].
  - rewrite lookup_insert_eq. intros [= <-]. by destruct (default _ _).
  - rewrite lookup_insert_ne by done. apply He.
Qed.

Lemma save_pending_nonempty (st : state) :
  Spec.values_nonempty (entities st) → Spec.values_nonempty (Predict.save_pending st).
Proof.
  intros H. unfold Predict.save_pending.
  destruct (current_entity st) as [c|]; [|done].
  destruct (Py.truthy (Some c)); [|done].
  rewrite save_entity_append. by apply append_to_values_nonempty.
Qed.

Lemma group_step_nonempty (st : state) (tl : str * str) :
  Spec.values_nonempty (entities st) →
  Spec.values_nonempty (entities (Predict.group_step st tl)).
Proof.
  intros H. destruct tl as [token label]. unfold Predict.group_step.
  repeat case_match; simpl; auto using save_pending_nonempty.
Qed.

Lemma group_entities_nonempty (pairs : list (str * str)) :
  Spec.values_nonempty (Predict.group_entities pairs).
Proof.
  unfold Predict.group_entities, Predict.group_loop.
  apply save_pending_nonempty.
  assert (H : Spec.values_nonempty (entities init)) by (intros k vs; done).
  revert H. generalize init. induction pairs as [|tl pairs IH]; intros st H.
  - done.
  - simpl. apply IH. by apply group_step_nonempty.
Qed.

End NonEmptyValues.

(** * The report *)

Section Report.

Lemma fold_bullets (prefix : str) (vs acc : list str) :
  fold_left (λ lines v, lines ++ [prefix ++ v]) vs acc
  = acc ++ ((λ v, prefix ++ v) <$> vs).
Proof.
  revert acc. induction vs as [|v vs IH]; intros acc; simpl.
  - by rewrite app_nil_r.
  - by rewrite IH, <- app_assoc.
Qed.

(** The statements of step 10, run one after the other, build the
    sections in the specification's order. *)
Lemma format_lines_sections (e : gmap (list N) (list (list N))) :
  Spec.values_nonempty e → Predict.format_lines e = Some (Spec.sections e).
Proof.
  intros He. unfold Predict.format_lines, Spec.sections.
  assert (Hfirst : ∀ k (acc : list str) pre,
    (match e !! k with
     | Some vs => v ← head vs; Some (acc ++ [pre ++ v])
     | None => Some acc
     end) = Some (acc ++ Spec.first_value pre (e !! k))).
  { intros k acc pre. destruct (e !! k) as [[|v vs]|] eqn:Hk; simpl.
    - by destruct (He k [] Hk).
    - done.
    - by rewrite app_nil_r. }
  assert (Hall : ∀ k (acc : list str) title,
    (match e !! k with
     | Some vs =>
         fold_left (λ lines v, lines ++ [lit "- " ++ v]) vs (acc ++ [title])
     | None => acc
     end) = acc ++ Spec.bulleted title (e !! k)).
  { intros k acc title. unfold Spec.bulleted.
    destruct (e !! k) as [vs|].
    - by rewrite (fold_bullets (lit "- ")), <- app_assoc.
    - by rewrite app_nil_r. }
  rewrite (Hfirst (lit "STORE") [] (lit "# ")). cbn [mbind option_bind].
  rewrite (Hfirst (lit "DATE") _ (lit "Date: ")). cbn [mbind option_bind].
  rewrite (Hall (lit "ITEM") _ (nl ++ lit "## Items")).
  rewrite (Hall (lit "PRICE") _ (nl ++ lit "## Prices")).
  rewrite (Hfirst (lit "TOTAL") _ (nl ++ lit "## Total: ")).
  by rewrite app_nil_l, <- !app_assoc.
Qed.

Lemma first_value_lines (c : N) (pre : str) (o : option (list str)) :
  c ≠ 78%N → Forall Spec.starts_otherwise (Spec.first_value (c :: pre) o).
Proof.
  intros Hc. destruct o as [[|v vs]|]; simpl; try by constructor.
  repeat constructor. by eexists _, _.
Qed.

Lemma bulleted_lines (c : N) (title : str) (o : option (list str)) :
  c ≠ 78%N → Forall Spec.starts_otherwise (Spec.bulleted (c :: title) o).
Proof.
  intros Hc. destruct o as [vs|]; simpl; [|by constructor].
  constructor; [by eexists _, _|].
  apply Forall_fmap, Forall_true. intros v. by eexists _, _.
Qed.

Lemma sections_lines (e : gmap (list N) (list (list N))) :
  Forall Spec.starts_otherwise (Spec.sections e).
Proof.
  unfold Spec.sections. repeat apply Forall_app_2;
    first [apply first_value_lines | apply bulleted_lines]; done.
Qed.

Lemma join_head (sep : str) (c : N) (rest : str) (lines : list str) :
  ∃ tail, Py.join sep ((c :: rest) :: lines) = c :: tail.
Proof. destruct lines; simpl; by eexists. Qed.

Lemma sections_nil (e : gmap (list N) (list (list N))) :
  Spec.values_nonempty e →
  Spec.sections e = [] ↔ Spec.nothing_to_report e.
Proof.
  intros He. unfold Spec.sections, Spec.nothing_to_report. split.
  - intros H.
    repeat (apply app_eq_nil in H as [? H]).
    repeat match goal with
    | Hk : Spec.first_value _ (e !! ?k) = [] |- _ =>
        destruct (e !! k) as [[|? ?]|] eqn:?; simpl in Hk;
        [by edestruct He | discriminate Hk | clear Hk]
    | Hk : Spec.bulleted _ (e !! ?k) = [] |- _ =>
        destruct (e !! k) as [?|] eqn:?; simpl in Hk;
        [discriminate Hk | clear Hk]
    end.
    done.
  - intros (-> & -> & -> & -> & ->). done.
Qed.

End Report.


Section Decoding.

(** Decoding always returns: the report never indexes an empty list. *)
Lemma decode_returns (tokens labels : list str) :
  let e := Predict.group_entities (zip tokens labels) in
  Predict.decode tokens labels
  = Ret (Result e (Predict.formatted_text (Spec.sections e))
           (take 50 tokens) (take 50 labels)).
Proof.
  intros e. unfold Predict.decode. fold e.
  rewrite format_lines_sections; [done|].
  apply group_entities_nonempty.
Qed.

End Decoding.

(** C5 (as amended).  For every mapping whose lists are non-empty, as
    the grouping pass produces them, the report consists of exactly: the
    first STORE value as a heading, the first DATE value as a line, all
    ITEM values and all PRICE values as bulleted lists under their
    titles, and the first TOTAL value as the closing line, one section
    for each of these types that is present and none for an absent one;
    the lines are joined by newlines.  The fixed message is emitted if
    and only if none of the five types is present. *)
Theorem report_sections (e : gmap (list N) (list (list N))) :
  Spec.values_nonempty e →
  Predict.format_lines e = Some (Spec.sections e)
  ∧ (Predict.formatted_text (Spec.sections e) = Predict.no_entities_message
     ↔ Spec.nothing_to_report e)
  ∧ (¬ Spec.nothing_to_report e →
     Predict.formatted_text (Spec.sections e) = Py.join nl (Spec.sections e))
  ∧ LayoutLMv3.formatted_text <$> LayoutLMv3.format_lines e
    = Predict.formatted_text <$> Predict.format_lines e.
Proof.
  intros He. split; [by apply format_lines_sections|].
  split; [|split];
    [| |rewrite format_lines_agree; destruct (Predict.format_lines e);
        simpl; by rewrite ?formatted_text_agree].
  - rewrite <- (sections_nil e He). split.
    + intros H. pose proof (sections_lines e) as Hl.
      destruct (Spec.sections e) as [|line lines]; [done|].
      apply Forall_cons in Hl as [(c & rest & -> & Hc) _].
      unfold Predict.formatted_text in H.
      destruct (join_head nl c rest lines) as [tail Ht].
      rewrite Ht in H. vm_compute in H. congruence.
    + by intros ->.
  - intros Hn. rewrite <- (sections_nil e He) in Hn.
    by destruct (Spec.sections e).
Qed.

Lemma report_sections_witness :
  Predict.format_lines
    {[ lit "STORE" := [lit "ACME"; lit "Branch"];
       lit "ITEM" := [lit "pie"; lit "tea"];
       lit "TOTAL" := [lit "9"] ]}
  = Some [lit "# ACME"; nl ++ lit "## Items"; lit "- pie"; lit "- tea";
          nl ++ lit "## Total: 9"].
Proof.
  etransitivity.
  - apply report_sections.
    change (map_Forall (λ (_ : str) (texts : list str), texts ≠ [])
              ({[ lit "STORE" := [lit "ACME"; lit "Branch"];
                  lit "ITEM" := [lit "pie"; lit "tea"];
                  lit "TOTAL" := [lit "9"] ]} : gmap (list N) (list (list N)))).
    apply (bool_decide_unpack _). vm_compute. exact I.
  - vm_compute. reflexivity.
Defined.

(** C5 as worded fails on an entity of another type: something was
    detected, and the fixed message is emitted all the same.  And on a
    mapping that keeps an empty list, which the grouping pass never
    produces, there is no first value to emit: the formatter raises. *)
Lemma report_counterexample :
  let e := Predict.group_entities [(G_dot ++ lit "Latte", lit "B-MENU.NM")] in
  e = {[ lit "MENU.NM" := [lit "Latte"] ]}
  ∧ e ≠ ∅
  ∧ Predict.formatted_text <$> Predict.format_lines e
    = Some Predict.no_entities_message
  ∧ Predict.format_lines {[ lit "STORE" := [] ]} = None.
Proof.
  repeat split; try (vm_compute; reflexivity).
  intros H. apply (f_equal (λ e, e !! lit "MENU.NM")) in H.
  vm_compute in H. discriminate H.
Qed.

(** ** Where the keys come from *)

Section Keys.

Lemma opens_mono (seen more : list (str * str)) (label : str) :
  Spec.opens seen label → Spec.opens (seen ++ more) label.
Proof.
  intros (token & Hin & Hs & Hb). exists token.
  split; [|done]. apply elem_of_app. by left.
Qed.

Lemma save_pending_keys (seen : list (str * str)) (st : state) (k : str) :
  Spec.keys_from seen st →
  is_Some (Predict.save_pending st !! k) →
  ∃ label, Spec.opens seen label ∧ k = Predict.entity_type label.
Proof.
  intros [Hkeys Hcur]. unfold Predict.save_pending.
  destruct (current_entity st) as [c|] eqn:Hc; [|apply Hkeys].
  destruct (Py.truthy (Some c)); [|apply Hkeys].
  rewrite save_entity_append. unfold Spec.append_to.
  destruct (decide (Predict.entity_type c = k)) as [<-|Hne].
  - intros _. exists c. split; [by apply Hcur|done].
  - rewrite lookup_insert_ne by done. apply Hkeys.
Qed.

Lemma group_step_keys (seen : list (str * str)) (st : state)
    (tl : str * str) :
  Spec.keys_from seen st →
  Spec.keys_from (seen ++ [tl]) (Predict.group_step st tl).
Proof.
  intros Hinv. pose proof Hinv as [Hkeys Hcur].
  assert (Hsaved : ∀ k, is_Some (Predict.save_pending st !! k) →
    ∃ label, Spec.opens (seen ++ [tl]) label ∧ k = Predict.entity_type label).
  { intros k Hk. destruct (save_pending_keys seen st k Hinv Hk) as (l & ? & ?).
    exists l. split; [by apply opens_mono|done]. }
  assert (Hold : ∀ k, is_Some (entities st !! k) →
    ∃ label, Spec.opens (seen ++ [tl]) label ∧ k = Predict.entity_type label).
  { intros k Hk. destruct (Hkeys k Hk) as (l & ? & ?).
    exists l. split; [by apply opens_mono|done]. }
  assert (Hcur' : ∀ c, current_entity st = Some c →
    Spec.opens (seen ++ [tl]) c).
  { intros c Hc. by apply opens_mono, Hcur. }
  destruct tl as [token label]. unfold Predict.group_step.
  destruct (Predict.is_structural token) eqn:Hs; [by split|].
  destruct (Py.startswith (lit "B-") label) eqn:Hb.
  { split; simpl; [done|]. intros c [= <-]. exists token.
    split; [|done]. apply elem_of_app. right. by apply list_elem_of_singleton. }
  match goal with |- context [if ?b then _ else _] => destruct b end.
  - by split.
  - split; simpl; [done|]. by intros c.
Qed.

Lemma fold_keys (pairs seen : list (str * str)) (st : state) :
  Spec.keys_from seen st →
  Spec.keys_from (seen ++ pairs) (fold_left Predict.group_step pairs st).
Proof.
  revert seen st. induction pairs as [|tl pairs IH]; intros seen st H.
  - by rewrite app_nil_r.
  - simpl. rewrite (cons_middle tl seen pairs), app_assoc.
    apply IH. by apply group_step_keys.
Qed.

Lemma group_entities_keys (pairs : list (str * str)) (k : str) :
  is_Some (Predict.group_entities pairs !! k) →
  ∃ label, Spec.opens pairs label ∧ k = Predict.entity_type label.
Proof.
  apply save_pending_keys. apply (fold_keys pairs [] init).
  split.
  - intros k' [x Hx]. simpl in Hx. by rewrite lookup_empty in Hx.
  - by intros c.
Qed.

Lemma label_type_B (T : str) : Spec.label_type (lit "B-" ++ T) = T.
Proof. reflexivity. Qed.

End Keys.

(** Keys and values of the mapping.  Every value is a non-empty list,
    and every key comes from a ["B-"] label of a pair that is not
    skipped, never from a bare ["I-"] or ["O"] label: the key is that
    label's type whenever the type holds neither marker. *)
Theorem keys_and_values (pairs : list (str * str)) (k : str)
    (vs : list str) :
  Predict.group_entities pairs !! k = Some vs →
  vs ≠ []
  ∧ ∃ token label,
      (token, label) ∈ pairs
      ∧ Predict.is_structural token = false
      ∧ Py.startswith (lit "B-") label = true
      ∧ k = Predict.entity_type label
      ∧ (Spec.marker_free (Spec.label_type label) → k = Spec.label_type label)
      ∧ LayoutLMv3.group_entities pairs = Predict.group_entities pairs.
Proof.
  intros Hk. split; [by eapply group_entities_nonempty|].
  destruct (group_entities_keys pairs k) as (label & (token & Hin & Hs & Hb) & ->);
    [by eexists|].
  exists token, label.
  split; [done|]. split; [done|]. split; [done|]. split; [done|].
  split; [|apply group_entities_agree].
  destruct (startswith_inv _ _ Hb) as [T ->].
  rewrite label_type_B. intros HT. by apply entity_type_B.
Qed.

Lemma keys_and_values_witness :
  [lit "ACME Ltd"] ≠ []
  ∧ ∃ token label,
      (token, label)
        ∈ [(G_dot ++ lit "ACME", lit "B-STORE"); (G_dot ++ lit "Ltd", lit "I-STORE")]
      ∧ Predict.is_structural token = false
      ∧ Py.startswith (lit "B-") label = true
      ∧ lit "STORE" = Predict.entity_type label
      ∧ (Spec.marker_free (Spec.label_type label)
         → lit "STORE" = Spec.label_type label)
      ∧ LayoutLMv3.group_entities
          [(G_dot ++ lit "ACME", lit "B-STORE"); (G_dot ++ lit "Ltd", lit "I-STORE")]
        = Predict.group_entities
            [(G_dot ++ lit "ACME", lit "B-STORE"); (G_dot ++ lit "Ltd", lit "I-STORE")].
Proof.
  apply (keys_and_values
           [(G_dot ++ lit "ACME", lit "B-STORE"); (G_dot ++ lit "Ltd", lit "I-STORE")]
           (lit "STORE") [lit "ACME Ltd"]).
  vm_compute. reflexivity.
Defined.

(** C8.  The code at a label whose type holds a marker.  The only label
    of the input is ["B-SUB-X"], of type ["SUB-X"]; the mapping comes out
    with the one key ["SUX"], which is the type of no label of the
    input. *)
Theorem key_is_no_label_type :
  let pairs := [(lit "a", lit "B-SUB-X")] in
  Spec.label_type (lit "B-SUB-X") = lit "SUB-X"
  ∧ Predict.group_entities pairs = {[ lit "SUX" := [lit "a"] ]}
  ∧ LayoutLMv3.group_entities pairs = Predict.group_entities pairs
  ∧ ¬ ∃ token label, (token, label) ∈ pairs ∧ lit "SUX" = Spec.label_type label.
Proof.
  repeat split; try (vm_compute; reflexivity).
  intros (token & label & Hin & Hty).
  apply list_elem_of_singleton in Hin. injection Hin as -> ->.
  vm_compute in Hty. discriminate Hty.
Qed.

(** * The external-OCR predictor *)

Section ShapeChecks.

(** Non-empty words and boxes of different lengths: the routine returns
    at once, before the tokenizer is called, the empty mapping, no
    tokens, no predictions and the message that reports both counts. *)
Lemma mismatch_is_reported (words : list str) (boxes : list (list Z)) :
  words ≠ [] → boxes ≠ [] → length words ≠ length boxes →
  LayoutLMv3.process_receipt words boxes
  = Ret (Result ∅
           (lit "Error: words (" ++ Py.str_of_nat (length words)
            ++ lit ") and boxes (" ++ Py.str_of_nat (length boxes)
            ++ lit ") count mismatch.") [] []).
Proof.
  intros Hw Hb Hlen. unfold LayoutLMv3.process_receipt.
  rewrite (bool_decide_eq_false_2 _ Hw), (bool_decide_eq_false_2 _ Hb).
  by rewrite (bool_decide_eq_true_2 _ Hlen).
Qed.

(** Whatever else it holds, an encoding without ["bbox"] makes the
    routine raise before the model is called. *)
Lemma run_model_without_bbox (encoded_inputs image_inputs : gmap (list N) tensor) :
  encoded_inputs !! lit "bbox" = None →
  LayoutLMv3.run_model encoded_inputs image_inputs = Raise.
Proof.
  intros H. unfold LayoutLMv3.run_model. rewrite H.
  by destruct (encoded_inputs !! lit "input_ids").
Qed.

(** With the four tensors in place the model is called on them, and the
    answers are decoded. *)
Lemma run_model_with_tensors (encoded_inputs image_inputs : gmap (list N) tensor)
    (input_ids bbox attention_mask pixel_values : tensor) :
  encoded_inputs !! lit "input_ids" = Some input_ids →
  encoded_inputs !! lit "bbox" = Some bbox →
  encoded_inputs !! lit "attention_mask" = Some attention_mask →
  image_inputs !! lit "pixel_values" = Some pixel_values →
  Predict.run_model encoded_inputs image_inputs
  = Infer input_ids bbox attention_mask pixel_values (λ predictions,
      Id2Label (λ id2label,
        ConvertIds input_ids (λ tokens,
          Predict.decode tokens
            ((λ pred, default (lit "O") (id2label !! pred)) <$> predictions)))).
Proof.
  intros H1 H2 H3 H4. unfold Predict.run_model. by rewrite H1, H2, H3, H4.
Qed.

Lemma run_model_agree (encoded_inputs image_inputs : gmap (list N) tensor) :
  LayoutLMv3.run_model encoded_inputs image_inputs
  = Predict.run_model encoded_inputs image_inputs.
Proof. reflexivity. Qed.

End ShapeChecks.

(** C6.  The routine at a well-shaped input: one word, one box.  Both
    shape checks pass and the tokenizer is called; it is a
    [RobertaTokenizer], whose encoding holds ["input_ids"] and
    ["attention_mask"] and no ["bbox"], so that the routine's own
    [encoded_inputs["bbox"]] raises [KeyError] before the model is
    called: mismatched lengths are not the only way to fail. *)
Theorem well_shaped_input_raises :
  LayoutLMv3.process_receipt [lit "ACME"] [[0; 0; 10; 10]%Z]
  = Tokenize [lit "ACME"] [[0; 0; 10; 10]%Z] (λ encoded_inputs,
      ProcessImage (λ image_inputs,
        LayoutLMv3.run_model encoded_inputs image_inputs))
  ∧ ∀ image_inputs : gmap (list N) tensor,
      LayoutLMv3.run_model
        {[ lit "input_ids" := Tensor 0; lit "attention_mask" := Tensor 1 ]}
        image_inputs
      = Raise.
Proof.
  split; [reflexivity|].
  intros image_inputs. apply run_model_without_bbox.
  vm_compute. reflexivity.
Qed.

(** C10.  Empty words or empty boxes: the routine returns at once,
    before the lengths are compared and before any inference, the empty
    mapping, no tokens, no predictions and the no-text message. *)
Theorem empty_input_reported (words : list str) (boxes : list (list Z)) :
  words = [] ∨ boxes = [] →
  LayoutLMv3.process_receipt words boxes
  = Ret (Result ∅ (lit "No text provided.") [] []).
Proof.
  intros H. unfold LayoutLMv3.process_receipt.
  destruct H as [-> | ->]; [done|].
  by rewrite orb_true_r.
Qed.

Lemma empty_input_reported_witness :
  LayoutLMv3.process_receipt [] [[0; 0; 10; 10]%Z]
  = Ret (Result ∅ (lit "No text provided.") [] []).
Proof.
  apply (empty_input_reported [] [[0; 0; 10; 10]%Z]). left. reflexivity.
Defined.

(** C7.  The decoder and the formatter of the two files agree: on every
    sequence of pairs they give the same mapping and the same report, and
    on every tokens and labels the same result. *)
Theorem duplicated_decoders_agree :
  ∀ (tokens labels : list str) (pairs : list (str * str)),
    LayoutLMv3.group_entities pairs = Predict.group_entities pairs
    ∧ LayoutLMv3.formatted_text
        <$> LayoutLMv3.format_lines (LayoutLMv3.group_entities pairs)
      = Predict.formatted_text
          <$> Predict.format_lines (Predict.group_entities pairs)
    ∧ LayoutLMv3.decode tokens labels = Predict.decode tokens labels.
Proof.
  intros tokens labels pairs. split; [apply group_entities_agree|]. split.
  - rewrite group_entities_agree, format_lines_agree.
    destruct (Predict.format_lines _) as [lines|]; [|done]. simpl.
    by rewrite formatted_text_agree.
  - apply decode_agree.
Qed.

(** * The box estimate of the client *)

Section Boxes.

Lemma findall_go_run (run text : str) :
  run ≠ [] → Client.findall_go run text ≠ [].
Proof.
  revert run. induction text as [|c text IH]; intros run Hrun; simpl.
  - by destruct run.
  - destruct (Py.isspace c).
    + by destruct run.
    + by apply IH.
Qed.

(** No word is found exactly when every character is whitespace. *)
Lemma findall_nil (text : str) :
  Client.findall_nonspace text = []
  ↔ Forall (λ c, Py.isspace c = true) text.
Proof.
  unfold Client.findall_nonspace. induction text as [|c text IH]; simpl.
  - split; [by constructor|done].
  - destruct (Py.isspace c) eqn:Hc.
    + rewrite IH. split; [by constructor|]. by inversion 1.
    + split.
      * intros H. by apply findall_go_run in H.
      * inversion 1; congruence.
Qed.

(** Every word found is a non-empty run of non-whitespace characters. *)
Lemma findall_go_words (run text : str) :
  Forall (λ c, Py.isspace c = false) run →
  Forall (λ w, w ≠ [] ∧ Forall (λ c, Py.isspace c = false) w)
    (Client.findall_go run text).
Proof.
  revert run. induction text as [|c text IH]; intros run Hrun; simpl.
  - destruct run as [|r run]; constructor; [|done].
    split; [|by apply Forall_reverse].
    intros H%(f_equal length). rewrite length_reverse in H. done.
  - destruct (Py.isspace c) eqn:Hc.
    + destruct run as [|r run]; [by apply IH|].
      constructor; [|by apply IH].
      split; [|by apply Forall_reverse].
      intros H%(f_equal length). rewrite length_reverse in H. done.
    + apply IH. by constructor.
Qed.

Lemma floordiv_some (a b : Z) :
  b ≠ 0%Z → Client.floordiv a b = Some (a / b)%Z.
Proof. intros Hb. unfold Client.floordiv. by rewrite bool_decide_eq_false_2. Qed.

Lemma pymod_some (a b : Z) :
  b ≠ 0%Z → Client.pymod a b = Some (a mod b)%Z.
Proof. intros Hb. unfold Client.pymod. by rewrite bool_decide_eq_false_2. Qed.

(** Whatever the raw estimate, the clamped box lies inside the image. *)
Lemma clamped_box_ok (W H x0 y0 x1 y1 : Z) :
  (1 ≤ W)%Z → (1 ≤ H)%Z →
  Spec.box_ok W H
    [Z.max 0 (Z.min x0 (W - 1)); Z.max 0 (Z.min y0 (H - 1));
     Z.max (Z.max 0 (Z.min x0 (W - 1)) + 1) (Z.min x1 W);
     Z.max (Z.max 0 (Z.min y0 (H - 1)) + 1) (Z.min y1 H)].
Proof. intros HW HH. eexists _, _, _, _. split; [done|]. lia. Qed.

Lemma box_loop_ok (W H wpl lh cw : Z) :
  (1 ≤ W)%Z → (1 ≤ H)%Z → wpl ≠ 0%Z →
  ∀ (words : list str) (i : Z) (boxes : list (list Z)),
    Forall (Spec.box_ok W H) boxes →
    ∃ boxes',
      Client.box_loop W H wpl lh cw i words boxes = Some boxes'
      ∧ length boxes' = length boxes + length words
      ∧ Forall (Spec.box_ok W H) boxes'.
Proof.
  intros HW HH Hwpl. induction words as [|word words IH]; intros i boxes Hb.
  - exists boxes. simpl. split; [done|]. split; [lia|done].
  - cbn [Client.box_loop].
    rewrite (floordiv_some _ _ Hwpl), (pymod_some _ _ Hwpl).
    cbn [mbind option_bind].
    edestruct IH as (boxes' & -> & Hlen & Hok).
    { apply Forall_app_2; [exact Hb|].
      constructor; [|constructor]. by apply clamped_box_ok. }
    exists boxes'. split; [done|]. split; [|done].
    rewrite Hlen, length_app. simpl. lia.
Qed.

End Boxes.

(** C9.  For every text, every image at least one pixel wide and high,
    and whatever the truncated square root comes to, the estimate
    returns normally: no division by zero and no maximum of an empty
    collection occurs.  It returns the words found and as many boxes;
    none of either when the text is all whitespace; and every box
    [x0, y0, x1, y1] has [0 <= x0 < x1 <= image_width] and
    [0 <= y0 < y1 <= image_height]. *)
Theorem boxes_within_image (int_pow_half : Z → Z) (text : str)
    (image_width image_height : Z) :
  (1 ≤ image_width)%Z → (1 ≤ image_height)%Z →
  ∃ (words : list str) (boxes : list (list Z)),
    Client.extract_words_and_boxes int_pow_half text image_width image_height
    = Some (words, boxes)
    ∧ length words = length boxes
    ∧ (Forall (λ c, Py.isspace c = true) text → words = [] ∧ boxes = [])
    ∧ Forall (Spec.box_ok image_width image_height) boxes.
Proof.
  intros HW HH. unfold Client.extract_words_and_boxes.
  pose proof (findall_nil text) as Hnil.
  destruct (Client.findall_nonspace text) as [|word words] eqn:Hwords.
  { exists [], []. by repeat split. }
  rewrite bool_decide_eq_false_2 by done.
  set (ws := word :: words) in *.
  set (wpl := Z.max 1 (int_pow_half (Client.len_list ws))).
  rewrite (floordiv_some _ wpl) by lia. cbn [mbind option_bind].
  rewrite floordiv_some by lia. cbn [mbind option_bind].
  change (Client.max_of (Client.len <$> ws))
    with (Some (foldr Z.max (Client.len word) (Client.len <$> words))).
  cbn [mbind option_bind]. rewrite floordiv_some by lia.
  cbn [mbind option_bind].
  edestruct (box_loop_ok image_width image_height wpl) as (boxes & -> & Hlen & Hok);
    [done | done | lia | constructor |].
  exists ws, boxes. cbn [mbind option_bind].
  split; [done|]. split; [by rewrite Hlen|]. split; [|done].
  intros Hall. apply Hnil in Hall. discriminate Hall.
Qed.

Lemma boxes_within_image_witness :
  ∃ (words : list str) (boxes : list (list Z)),
    Client.extract_words_and_boxes Z.sqrt (lit " ab  cde f  g h") 100 50
    = Some (words, boxes)
    ∧ length words = length boxes
    ∧ (Forall (λ c, Py.isspace c = true) (lit " ab  cde f  g h")
       → words = [] ∧ boxes = [])
    ∧ Forall (Spec.box_ok 100 50) boxes.
Proof.
  apply (boxes_within_image Z.sqrt (lit " ab  cde f  g h") 100 50); lia.
Defined.

(** * Further properties of the decoder *)

(** ** Stripping and cleaning *)

Section Stripping.

Lemma lstrip_split (s : str) :
  ∃ pre, s = pre ++ Py.lstrip s ∧ Forall (λ c, Py.isspace c = true) pre.
Proof.
  induction s as [|c s (pre & IH & Hpre)]; [by exists []|].
  simpl. destruct (Py.isspace c) eqn:Hc.
  - exists (c :: pre). split; [simpl; congruence|by constructor].
  - by exists [].
Qed.

Lemma lstrip_head (s : str) (c : N) :
  head (Py.lstrip s) = Some c → Py.isspace c = false.
Proof.
  induction s as [|a s IH]; [done|]. simpl.
  destruct (Py.isspace a) eqn:Ha; [done|]. simpl. congruence.
Qed.

Lemma lstrip_nil (s : str) :
  Py.lstrip s = [] ↔ Forall (λ c, Py.isspace c = true) s.
Proof.
  induction s as [|a s IH]; simpl; [split; [by constructor|done]|].
  destruct (Py.isspace a) eqn:Ha.
  - rewrite IH. split; [by constructor|by inversion 1].
  - split; [done|]. inversion 1; congruence.
Qed.

Lemma rstrip_split (s : str) :
  ∃ suf, s = Py.rstrip s ++ suf ∧ Forall (λ c, Py.isspace c = true) suf.
Proof.
  unfold Py.rstrip. destruct (lstrip_split (reverse s)) as (pre & Hs & Hpre).
  exists (reverse pre). split; [|by apply Forall_reverse].
  rewrite <- reverse_app, <- Hs. by rewrite reverse_involutive.
Qed.

Lemma rstrip_last (s : str) (c : N) :
  last (Py.rstrip s) = Some c → Py.isspace c = false.
Proof. unfold Py.rstrip. rewrite last_reverse. apply lstrip_head. Qed.

(** Stripping at the right leaves the first character where it is. *)
Lemma rstrip_head (s : str) (c : N) :
  head (Py.rstrip s) = Some c → head s = Some c.
Proof.
  destruct (rstrip_split s) as (suf & Hs & _). intros H.
  rewrite Hs. destruct (Py.rstrip s); [done|]. exact H.
Qed.

(** The stripped string sits inside the string, between whitespace, and
    neither starts nor ends with whitespace. *)
Lemma strip_spec (s : str) :
  (∃ pre suf, s = pre ++ Py.strip s ++ suf
     ∧ Forall (λ c, Py.isspace c = true) pre
     ∧ Forall (λ c, Py.isspace c = true) suf)
  ∧ (∀ c, head (Py.strip s) = Some c → Py.isspace c = false)
  ∧ (∀ c, last (Py.strip s) = Some c → Py.isspace c = false).
Proof.
  unfold Py.strip. split; [|split].
  - destruct (lstrip_split s) as (pre & Hs & Hpre).
    destruct (rstrip_split (Py.lstrip s)) as (suf & Hl & Hsuf).
    exists pre, suf. split; [|done]. by rewrite <- Hl.
  - intros c Hc. apply rstrip_head in Hc. by apply (lstrip_head s).
  - apply rstrip_last.
Qed.

Lemma strip_fixed (s : str) :
  (∀ c, head s = Some c → Py.isspace c = false) →
  (∀ c, last s = Some c → Py.isspace c = false) →
  Py.strip s = s.
Proof.
  intros Hh Hl. unfold Py.strip, Py.rstrip.
  assert (Hls : ∀ t : str, (∀ c, head t = Some c → Py.isspace c = false) →
            Py.lstrip t = t).
  { intros [|c t] Ht; [done|]. simpl. by rewrite (Ht c). }
  rewrite (Hls s Hh), Hls; [apply reverse_involutive|].
  intros c. rewrite head_reverse. apply Hl.
Qed.

Lemma strip_nil (s : str) :
  Py.strip s = [] ↔ Forall (λ c, Py.isspace c = true) s.
Proof.
  destruct (strip_spec s) as ((pre & suf & Hs & Hpre & Hsuf) & _ & _). split.
  - intros H. rewrite Hs, H. by apply Forall_app_2.
  - intros H. unfold Py.strip. apply lstrip_nil in H. by rewrite H.
Qed.

End Stripping.

(** X1.  The cleaned token text never holds the word-boundary marker and
    never starts or ends with whitespace, and cleaning it again changes
    nothing. *)
Theorem clean_is_clean (token : str) :
  (288%N ∉ Predict.clean token)
  ∧ (∀ c, head (Predict.clean token) = Some c → Py.isspace c = false)
  ∧ (∀ c, last (Predict.clean token) = Some c → Py.isspace c = false)
  ∧ Predict.clean (Predict.clean token) = Predict.clean token.
Proof.
  assert (Hno : 288%N ∉ Predict.clean token).
  { unfold Predict.clean, G_dot. change (lit " ") with [32%N].
    rewrite replace_char.
    set (m := (λ c : N, if (c =? 288)%N then 32%N else c) <$> token).
    destruct (strip_spec m) as ((pre & suf & Hm & _ & _) & _ & _).
    intros Hin. assert (Hinm : 288%N ∈ m).
    { rewrite Hm. apply elem_of_app. right. apply elem_of_app. by left. }
    apply list_elem_of_fmap in Hinm as (c & Hc & _).
    destruct (c =? 288)%N eqn:E; [done|]. apply N.eqb_neq in E. congruence. }
  destruct (strip_spec (Py.replace G_dot (lit " ") token)) as (_ & Hh & Hl).
  split; [done|]. split; [exact Hh|]. split; [exact Hl|].
  unfold Predict.clean at 1. unfold G_dot. change (lit " ") with [32%N].
  rewrite replace_char.
  assert (Hmap : (λ c : N, if (c =? 288)%N then 32%N else c)
                   <$> Predict.clean token = Predict.clean token).
  { induction (Predict.clean token) as [|c l IH]; [done|].
    rewrite fmap_cons. apply not_elem_of_cons in Hno as [Hc Hno].
    rewrite (IH Hno). destruct (c =? 288)%N eqn:E; [|done].
    apply N.eqb_eq in E. congruence. }
  rewrite Hmap. by apply strip_fixed.
Qed.

(** ** Writing entities as tagged tokens and reading them back *)

Section RoundTrip.

Lemma word_token_not_structural (w : str) :
  Predict.is_structural (G_dot ++ w) = false.
Proof.
  unfold Predict.is_structural. apply bool_decide_eq_false_2.
  unfold Predict.structural_tokens. intros H.
  repeat (apply elem_of_cons in H as [H|H]; [discriminate H|]).
  by apply elem_of_nil in H.
Qed.

Lemma group_step_B (st : state) (token T : str) :
  Predict.is_structural token = false →
  Predict.group_step st (token, lit "B-" ++ T)
  = State (Predict.save_pending st) (Some (lit "B-" ++ T)) [Predict.clean token].
Proof. intros Hs. unfold Predict.group_step. by rewrite Hs. Qed.

Lemma group_step_I (e : gmap (list N) (list (list N))) (texts : list str)
    (token T : str) :
  Predict.is_structural token = false → Spec.marker_free T →
  Predict.group_step (State e (Some (lit "B-" ++ T)) texts) (token, lit "I-" ++ T)
  = State e (Some (lit "B-" ++ T)) (texts ++ [Predict.clean token]).
Proof.
  intros Hs HT. unfold Predict.group_step. rewrite Hs.
  change (Py.startswith (lit "B-") (lit "I-" ++ T)) with false.
  change (Py.startswith (lit "I-") (lit "I-" ++ T)) with true.
  cbn [current_entity entities current_text].
  change (Py.truthy (Some (lit "B-" ++ T))) with true.
  cbn [andb fmap option_fmap option_map].
  rewrite (replace_I_of_I T HT), (replace_B_of_B T HT).
  by rewrite bool_decide_eq_true_2.
Qed.

Lemma fold_continuations (e : gmap (list N) (list (list N))) (T : str)
    (ws texts : list str) :
  Spec.marker_free T → Forall Spec.plain ws →
  fold_left Predict.group_step
    ((λ w, (G_dot ++ w, lit "I-" ++ T)) <$> ws)
    (State e (Some (lit "B-" ++ T)) texts)
  = State e (Some (lit "B-" ++ T)) (texts ++ ws).
Proof.
  intros HT Hws. revert texts.
  induction Hws as [|w ws Hw _ IH]; intros texts.
  - simpl. by rewrite app_nil_r.
  - rewrite fmap_cons. cbn [fold_left].
    rewrite (group_step_I e texts (G_dot ++ w) T
               (word_token_not_structural w) HT).
    rewrite IH. destruct (clean_word w Hw) as [-> _].
    by rewrite <- app_assoc.
Qed.

Lemma fold_entity (st : state) (T w0 : str) (ws : list str) :
  Spec.marker_free T → Spec.plain w0 → Forall Spec.plain ws →
  fold_left Predict.group_step (Bio.encode_entity (T, (w0, ws))) st
  = State (Predict.save_pending st) (Some (lit "B-" ++ T)) (w0 :: ws).
Proof.
  intros HT Hw0 Hws. unfold Bio.encode_entity. cbn [fold_left].
  rewrite (group_step_B st (G_dot ++ w0) T (word_token_not_structural w0)).
  destruct (clean_word w0 Hw0) as [-> _].
  by rewrite (fold_continuations _ T ws [w0] HT Hws).
Qed.

(** Tokens labelled ["O"] close the open entity at most once. *)
Lemma fold_gap (gap : list str) (st : state) :
  Predict.save_pending
    (fold_left Predict.group_step ((λ t, (t, lit "O")) <$> gap) st)
  = Predict.save_pending st.
Proof.
  revert st. induction gap as [|t gap IH]; intros st; [done|].
  rewrite fmap_cons. cbn [fold_left]. rewrite IH. unfold Predict.group_step.
  destruct (Predict.is_structural t); [done|].
  change (Py.startswith (lit "B-") (lit "O")) with false.
  change (Py.startswith (lit "I-") (lit "O")) with false.
  done.
Qed.

Lemma fold_encode (gap : list str)
    (ents : list (str * (str * list str))) (st : state) :
  Forall (λ ent, Spec.marker_free ent.1 ∧ Spec.plain ent.2.1
                 ∧ Forall Spec.plain ent.2.2) ents →
  Predict.save_pending
    (fold_left Predict.group_step (Bio.encode gap ents) st)
  = fold_left
      (λ e '(T, (w0, ws)), Spec.append_to e T (Py.join (lit " ") (w0 :: ws)))
      ents (Predict.save_pending st).
Proof.
  intros Hents. revert st.
  induction Hents as [|[T [w0 ws]] ents (HT & Hw0 & Hws) _ IH]; intros st.
  - done.
  - unfold Bio.encode. rewrite bind_cons. fold (Bio.encode gap ents).
    rewrite <- app_assoc, !fold_left_app. rewrite IH. cbn [fold_left].
    f_equal. rewrite fold_gap. simpl in HT, Hw0, Hws.
    rewrite (fold_entity st T w0 ws HT Hw0 Hws).
    unfold Predict.save_pending. cbn [current_entity entities current_text].
    change (Py.truthy (Some (lit "B-" ++ T))) with true. cbv iota.
    by rewrite save_entity_append, (entity_type_B T HT).
Qed.

End RoundTrip.

(** X2.  Reading back what was written: entities whose types hold no
    marker and whose words hold neither whitespace nor the word-boundary
    marker, presented as word-initial tokens labelled ["B-"T] for the
    first word and ["I-"T] for the others, each entity followed by any
    tokens labelled ["O"], are decoded to exactly these entities: under
    each type its texts in order, the words joined by single spaces. *)
Theorem decode_of_encode (gap : list str)
    (ents : list (str * (str * list str))) :
  Forall (λ ent, Spec.marker_free ent.1 ∧ Spec.plain ent.2.1
                 ∧ Forall Spec.plain ent.2.2) ents →
  Predict.group_entities (Bio.encode gap ents) = Bio.collect ents
  ∧ LayoutLMv3.group_entities (Bio.encode gap ents) = Bio.collect ents.
Proof.
  intros Hents.
  assert (H : Predict.group_entities (Bio.encode gap ents) = Bio.collect ents).
  { unfold Predict.group_entities, Predict.group_loop.
    by rewrite (fold_encode gap ents init Hents). }
  split; [exact H|].
  etransitivity; [apply group_entities_agree|exact H].
Qed.

Lemma decode_of_encode_witness :
  Predict.group_entities
    (Bio.encode [lit ":"; lit "[PAD]"]
       [(lit "ITEM", (lit "apple", [lit "pie"]));
        (lit "PRICE", (lit "3", []));
        (lit "ITEM", (lit "tea", []))])
  = {[ lit "ITEM" := [lit "apple pie"; lit "tea"];
       lit "PRICE" := [lit "3"] ]}.
Proof.
  etransitivity.
  - apply (decode_of_encode [lit ":"; lit "[PAD]"]
             [(lit "ITEM", (lit "apple", [lit "pie"]));
              (lit "PRICE", (lit "3", []));
              (lit "ITEM", (lit "tea", []))]).
    repeat constructor; vm_compute; congruence.
  - vm_compute. reflexivity.
Defined.

(** ** One text for each started entity *)

Section Counting.

Lemma count_texts_append (e : gmap (list N) (list (list N))) (k v : str) :
  Bio.count_texts (Spec.append_to e k v) = S (Bio.count_texts e).
Proof.
  unfold Bio.count_texts, Spec.append_to.
  assert (Hcomm : ∀ (z1 z2 : list (list N)) (y : nat),
            length z1 + (length z2 + y) = length z2 + (length z1 + y))
    by (intros; lia).
  destruct (e !! k) as [l|] eqn:Hk.
  - rewrite <- (insert_delete_id e k l Hk) at 2.
    rewrite <- (insert_delete_eq e).
    rewrite !map_fold_insert_L; try (by rewrite lookup_delete_eq); try (intros; apply Hcomm).
    simpl. rewrite length_app. simpl. lia.
  - rewrite map_fold_insert_L; [done| |done]. intros. apply Hcomm.
Qed.

Lemma count_texts_save_pending (st : state) :
  Bio.count_texts (Predict.save_pending st)
  = Bio.count_texts (entities st)
    + (if Py.truthy (current_entity st) then 1 else 0).
Proof.
  unfold Predict.save_pending. destruct (current_entity st) as [c|]; [|simpl; lia].
  destruct (Py.truthy (Some c)); [|lia].
  rewrite save_entity_append, count_texts_append. lia.
Qed.

Lemma count_starts_cons (tl : str * str) (pairs : list (str * str)) :
  Bio.count_starts (tl :: pairs)
  = (if Predict.is_structural tl.1 then 0
     else if Py.startswith (lit "B-") tl.2 then 1 else 0)
    + Bio.count_starts pairs.
Proof.
  unfold Bio.count_starts. rewrite filter_cons.
  destruct (Predict.is_structural tl.1), (Py.startswith (lit "B-") tl.2);
    case_decide as H; simpl; try done; destruct H; done.
Qed.

Lemma group_step_count (st : state) (tl : str * str) :
  Bio.count_texts (entities (Predict.group_step st tl))
  + (if Py.truthy (current_entity (Predict.group_step st tl)) then 1 else 0)
  = Bio.count_texts (entities st)
    + (if Py.truthy (current_entity st) then 1 else 0)
    + (if Predict.is_structural tl.1 then 0
       else if Py.startswith (lit "B-") tl.2 then 1 else 0).
Proof.
  destruct tl as [token label]. unfold Predict.group_step. cbn [fst snd].
  destruct (Predict.is_structural token); cbv iota; [lia|].
  destruct (Py.startswith (lit "B-") label) eqn:Hb; cbv iota.
  - cbn [entities current_entity]. rewrite count_texts_save_pending.
    destruct (startswith_inv _ _ Hb) as [T ->].
    change (Py.truthy (Some (lit "B-" ++ T))) with true. cbv iota. lia.
  - match goal with |- context [if ?b then State _ _ _ else _] => destruct b end;
      cbn [entities current_entity]; cbv iota.
    + lia.
    + rewrite count_texts_save_pending. cbn [Py.truthy]. lia.
Qed.

Lemma fold_count (pairs : list (str * str)) (st : state) :
  Bio.count_texts (Predict.save_pending (fold_left Predict.group_step pairs st))
  = Bio.count_texts (Predict.save_pending st) + Bio.count_starts pairs.
Proof.
  revert st. induction pairs as [|tl pairs IH]; intros st.
  - unfold Bio.count_starts. simpl. lia.
  - cbn [fold_left]. rewrite IH, count_starts_cons.
    rewrite !count_texts_save_pending, group_step_count. lia.
Qed.

End Counting.

(** X3.  The mapping holds exactly one text for each pair that is not
    skipped and whose label starts with ["B-"]: no started entity is
    lost or filed twice, and nothing else is filed. *)
Theorem one_text_per_start (pairs : list (str * str)) :
  Bio.count_texts (Predict.group_entities pairs) = Bio.count_starts pairs
  ∧ Bio.count_texts (LayoutLMv3.group_entities pairs) = Bio.count_starts pairs.
Proof.
  assert (H : Bio.count_texts (Predict.group_entities pairs)
              = Bio.count_starts pairs).
  { unfold Predict.group_entities, Predict.group_loop.
    rewrite fold_count.
    assert (H0 : Bio.count_texts (Predict.save_pending init) = 0)
      by apply map_fold_empty.
    by rewrite H0. }
  split; [exact H|].
  pose proof (group_entities_agree pairs) as Hagree.
  congruence.
Qed.

(** X4.  Pairs whose token is one of the three tokens the loop tests
    for, ["[CLS]"], ["[SEP]"] and ["[PAD]"], can be removed from the input
    or inserted anywhere without changing the mapping, whatever their
    labels. *)
Theorem structural_tokens_removable (pairs : list (str * str)) :
  Predict.group_entities
    (filter (λ tl, Predict.is_structural tl.1 = false) pairs)
  = Predict.group_entities pairs
  ∧ LayoutLMv3.group_entities
      (filter (λ tl, LayoutLMv3.is_structural tl.1 = false) pairs)
    = LayoutLMv3.group_entities pairs.
Proof.
  assert (H : Predict.group_entities
                (filter (λ tl, Predict.is_structural tl.1 = false) pairs)
              = Predict.group_entities pairs).
  { unfold Predict.group_entities, Predict.group_loop.
    by rewrite fold_skip_structural. }
  split; [exact H|].
  etransitivity; [apply group_entities_agree|].
  etransitivity; [exact H|]. symmetry. apply group_entities_agree.
Qed.

(** ** Texts on file are never changed *)

Section AppendOnly.

Lemma append_to_extends (e : gmap (list N) (list (list N)))
    (k v type : str) (texts : list str) :
  e !! type = Some texts →
  ∃ more, Spec.append_to e k v !! type = Some (texts ++ more).
Proof.
  intros Hl. unfold Spec.append_to.
  destruct (decide (k = type)) as [->|Hne].
  - exists [v]. by rewrite lookup_insert_eq, Hl.
  - exists []. by rewrite lookup_insert_ne, app_nil_r.
Qed.

Lemma save_pending_extends (st : state) (type : str) (texts : list str) :
  entities st !! type = Some texts →
  ∃ more, Predict.save_pending st !! type = Some (texts ++ more).
Proof.
  intros Hl. unfold Predict.save_pending.
  destruct (current_entity st) as [c|];
    [|exists []; by rewrite app_nil_r].
  destruct (Py.truthy (Some c)); [|exists []; by rewrite app_nil_r].
  rewrite save_entity_append. by apply append_to_extends.
Qed.

Lemma group_step_extends (st : state) (tl : str * str) (type : str)
    (texts : list str) :
  entities st !! type = Some texts →
  ∃ more, entities (Predict.group_step st tl) !! type = Some (texts ++ more).
Proof.
  intros Hl. destruct tl as [token label]. unfold Predict.group_step.
  repeat case_match; cbn [entities];
    first [by apply save_pending_extends | exists []; by rewrite app_nil_r].
Qed.

Lemma fold_extends (pairs : list (str * str)) (st : state) (type : str)
    (texts : list str) :
  entities st !! type = Some texts →
  ∃ more,
    entities (fold_left Predict.group_step pairs st) !! type
    = Some (texts ++ more).
Proof.
  revert st texts. induction pairs as [|tl pairs IH]; intros st texts Hl.
  - exists []. by rewrite app_nil_r.
  - cbn [fold_left].
    destruct (group_step_extends st tl type texts Hl) as [m1 H1].
    destruct (IH _ _ H1) as [m2 H2].
    exists (m1 ++ m2). by rewrite app_assoc.
Qed.

End AppendOnly.

(** X5.  The mapping only grows by appending: the texts on file under a
    type after some pairs are still there, unchanged and in the same
    order, at the front of that type's list whatever pairs follow. *)
Theorem filed_texts_are_kept (pairs more : list (str * str)) (type : str)
    (texts : list str) :
  entities (Predict.group_loop pairs) !! type = Some texts →
  ∃ later,
    Predict.group_entities (pairs ++ more) !! type = Some (texts ++ later).
Proof.
  intros Hl. unfold Predict.group_entities, Predict.group_loop.
  rewrite fold_left_app.
  destruct (fold_extends more _ type texts Hl) as [m1 H1].
  destruct (save_pending_extends _ type _ H1) as [m2 H2].
  exists (m1 ++ m2). by rewrite app_assoc.
Qed.

Lemma filed_texts_are_kept_witness :
  ∃ later,
    Predict.group_entities
      ([(lit "a", lit "B-ITEM"); (lit "x", lit "O"); (lit "b", lit "B-ITEM")]
       ++ [(lit "c", lit "I-ITEM"); (lit "d", lit "B-ITEM")])
      !! lit "ITEM"
    = Some ([lit "a"] ++ later).
Proof.
  apply (filed_texts_are_kept
           [(lit "a", lit "B-ITEM"); (lit "x", lit "O"); (lit "b", lit "B-ITEM")]
           [(lit "c", lit "I-ITEM"); (lit "d", lit "B-ITEM")]
           (lit "ITEM") [lit "a"]).
  vm_compute. reflexivity.
Defined.

(** ** When the report is the fixed message *)

Section FixedMessage.

Lemma formatted_text_message (e : gmap (list N) (list (list N))) :
  Spec.values_nonempty e →
  Predict.formatted_text (Spec.sections e) = Predict.no_entities_message
  ↔ Spec.nothing_to_report e.
Proof.
  intros He. rewrite <- (sections_nil e He). split.
  - intros H. pose proof (sections_lines e) as Hl.
    destruct (Spec.sections e) as [|line lines]; [done|].
    apply Forall_cons in Hl as [(c & rest & -> & Hc) _].
    unfold Predict.formatted_text in H.
    destruct (join_head nl c rest lines) as [tail Ht].
    rewrite Ht in H. vm_compute in H. congruence.
  - by intros ->.
Qed.

Lemma formatted_text_nonempty (e : gmap (list N) (list (list N))) :
  Predict.formatted_text (Spec.sections e) ≠ [].
Proof.
  pose proof (sections_lines e) as Hl.
  destruct (Spec.sections e) as [|line lines]; [done|].
  apply Forall_cons in Hl as [(c & rest & -> & Hc) _].
  unfold Predict.formatted_text.
  destruct (join_head nl c rest lines) as [tail ->]. done.
Qed.

Lemma key_of_start (pairs : list (str * str)) (token label : str) :
  (token, label) ∈ pairs →
  Predict.is_structural token = false →
  Py.startswith (lit "B-") label = true →
  is_Some (Predict.group_entities pairs !! Predict.entity_type label).
Proof.
  intros Hin Hs Hb.
  apply list_elem_of_split in Hin as (pre & suf & ->).
  destruct (startswith_inv _ _ Hb) as [T ->].
  destruct (started_is_filed pre suf token T Hs) as (texts & _ & Hl & _).
  by exists texts.
Qed.

End FixedMessage.

(** X6.  The report is the fixed message exactly when no pair that is
    not skipped has a ["B-"] label from which the code derives one of the
    five reported keys; entities of any other type, however many, leave
    the report at the fixed message. *)
Theorem fixed_message_iff (pairs : list (str * str)) :
  Predict.formatted_text <$> Predict.format_lines (Predict.group_entities pairs)
  = Some Predict.no_entities_message
  ↔ ∀ token label,
      (token, label) ∈ pairs →
      Predict.is_structural token = false →
      Py.startswith (lit "B-") label = true →
      Predict.entity_type label
        ∉ [lit "STORE"; lit "DATE"; lit "ITEM"; lit "PRICE"; lit "TOTAL"].
Proof.
  pose proof (group_entities_nonempty pairs) as He.
  rewrite (format_lines_sections _ He). cbn [fmap option_fmap option_map].
  split.
  - intros [= H]. apply (formatted_text_message _ He) in H.
    destruct H as (HS & HD & HI & HP & HT).
    intros token label Hin Hs Hb Hmem.
    destruct (key_of_start pairs token label Hin Hs Hb) as [texts Ht].
    repeat (apply elem_of_cons in Hmem as [Hmem|Hmem];
            [rewrite Hmem in Ht; congruence|]).
    by apply elem_of_nil in Hmem.
  - intros H. f_equal. apply (formatted_text_message _ He).
    assert (Hnone : ∀ k,
      k ∈ [lit "STORE"; lit "DATE"; lit "ITEM"; lit "PRICE"; lit "TOTAL"] →
      Predict.group_entities pairs !! k = None).
    { intros k Hk. apply eq_None_not_Some. intros Hsome.
      destruct (group_entities_keys pairs k Hsome)
        as (label & (token & Hin & Hs & Hb) & ->).
      by apply (H token label). }
    unfold Spec.nothing_to_report.
    repeat split; apply Hnone; set_solver.
Qed.

(** X7.  Decoding never raises, and its report is never the empty
    string: it is the fixed message or it starts with a section. *)
Theorem decode_report_nonempty (tokens predicted_labels : list str) :
  ∃ r, Predict.decode tokens predicted_labels = Ret r
       ∧ LayoutLMv3.decode tokens predicted_labels = Ret r
       ∧ r_formatted_text r ≠ []
       ∧ r_entities r = Predict.group_entities (zip tokens predicted_labels).
Proof.
  eexists. split; [apply decode_returns|].
  split; [etransitivity; [apply decode_agree|apply decode_returns]|].
  split; [|done]. apply formatted_text_nonempty.
Qed.

Lemma fixed_message_iff_witness :
  Predict.formatted_text
    <$> Predict.format_lines
          (Predict.group_entities
             [(G_dot ++ lit "Latte", lit "B-MENU.NM");
              (G_dot ++ lit "4", lit "B-MENU.PRICE")])
  = Some Predict.no_entities_message.
Proof.
  apply (proj2 (fixed_message_iff
                  [(G_dot ++ lit "Latte", lit "B-MENU.NM");
                   (G_dot ++ lit "4", lit "B-MENU.PRICE")])).
  intros token label Hin _ _ Hmem.
  apply elem_of_cons in Hin as [Hin|Hin].
  { injection Hin as -> ->.
    repeat (apply elem_of_cons in Hmem as [Hmem|Hmem]; [discriminate Hmem|]).
    by apply elem_of_nil in Hmem. }
  apply elem_of_cons in Hin as [Hin|Hin].
  { injection Hin as -> ->.
    repeat (apply elem_of_cons in Hmem as [Hmem|Hmem]; [discriminate Hmem|]).
    by apply elem_of_nil in Hmem. }
  by apply elem_of_nil in Hin.
Defined.

(** * Further properties of the client's word and box estimate *)

Section Words.

Lemma findall_go_concat (run text : str) :
  concat (Client.findall_go run text)
  = reverse run ++ filter (λ c, Py.isspace c = false) text.
Proof.
  revert run. induction text as [|c text IH]; intros run.
  - destruct run; simpl; [done|]. by rewrite !app_nil_r.
  - cbn [Client.findall_go]. rewrite filter_cons.
    destruct (Py.isspace c) eqn:Hc.
    + rewrite decide_False by congruence.
      destruct run as [|r run]; [apply IH|].
      cbn [concat]. by rewrite (IH []).
    + rewrite decide_True by done. rewrite IH, reverse_cons.
      by rewrite <- app_assoc.
Qed.

Lemma findall_go_leading (pre text : str) :
  Forall (λ c, Py.isspace c = true) pre →
  Client.findall_go [] (pre ++ text) = Client.findall_go [] text.
Proof.
  induction 1 as [|c pre Hc _ IH]; [done|].
  simpl. by rewrite Hc.
Qed.

Lemma findall_go_only_space (run suf : str) :
  Forall (λ c, Py.isspace c = true) suf →
  Client.findall_go run suf = Client.findall_go run [].
Proof.
  intros H. revert run. induction H as [|c suf Hc _ IH]; intros run; [done|].
  cbn [Client.findall_go]. rewrite Hc.
  destruct run as [|r run]; [by rewrite (IH [])|]. by rewrite (IH []).
Qed.

Lemma findall_go_trailing (run text suf : str) :
  Forall (λ c, Py.isspace c = true) suf →
  Client.findall_go run (text ++ suf) = Client.findall_go run text.
Proof.
  intros H. revert run. induction text as [|c text IH]; intros run.
  - by apply findall_go_only_space.
  - cbn [app Client.findall_go]. rewrite !IH. done.
Qed.

End Words.

(** X8.  The words found are the text cut at its whitespace: put
    together they give back the text without its whitespace, no
    character lost, added or reordered, and every word is a non-empty
    run of non-whitespace characters. *)
Theorem words_are_the_text (text : str) :
  concat (Client.findall_nonspace text)
  = filter (λ c, Py.isspace c = false) text
  ∧ Forall (λ w, w ≠ [] ∧ Forall (λ c, Py.isspace c = false) w)
      (Client.findall_nonspace text).
Proof.
  split.
  - apply (findall_go_concat [] text).
  - apply findall_go_words. constructor.
Qed.

(** X9.  Stripping the text, as the OCR predictor does before it returns
    it, does not change the words the client finds in it. *)
Theorem words_of_stripped_text (text : str) :
  Client.findall_nonspace (Py.strip text) = Client.findall_nonspace text.
Proof.
  destruct (strip_spec text) as ((pre & suf & Hs & Hpre & Hsuf) & _ & _).
  unfold Client.findall_nonspace. rewrite Hs at 2.
  rewrite (findall_go_leading pre _ Hpre).
  by rewrite (findall_go_trailing [] _ suf Hsuf).
Qed.

Section AnySize.

Lemma box_loop_all (P : list Z → Prop) (W H wpl lh cw : Z) :
  wpl ≠ 0%Z →
  (∀ x0 y0 x1 y1 : Z,
     P [Z.max 0 (Z.min x0 (W - 1)); Z.max 0 (Z.min y0 (H - 1));
        Z.max (Z.max 0 (Z.min x0 (W - 1)) + 1) (Z.min x1 W);
        Z.max (Z.max 0 (Z.min y0 (H - 1)) + 1) (Z.min y1 H)]) →
  ∀ (words : list str) (i : Z) (boxes : list (list Z)),
    Forall P boxes →
    ∃ boxes',
      Client.box_loop W H wpl lh cw i words boxes = Some boxes'
      ∧ length boxes' = length boxes + length words
      ∧ Forall P boxes'.
Proof.
  intros Hwpl HP. induction words as [|word words IH]; intros i boxes Hb.
  - exists boxes. simpl. split; [done|]. split; [lia|done].
  - cbn [Client.box_loop].
    rewrite (floordiv_some _ _ Hwpl), (pymod_some _ _ Hwpl).
    cbn [mbind option_bind].
    edestruct IH as (boxes' & -> & Hlen & Hok).
    { apply Forall_app_2; [exact Hb|]. constructor; [|constructor]. apply HP. }
    exists boxes'. split; [done|]. split; [|done].
    rewrite Hlen, length_app. simpl. lia.
Qed.

Lemma extract_all (P : list Z → Prop) (int_pow_half : Z → Z) (text : str)
    (W H : Z) :
  (∀ x0 y0 x1 y1 : Z,
     P [Z.max 0 (Z.min x0 (W - 1)); Z.max 0 (Z.min y0 (H - 1));
        Z.max (Z.max 0 (Z.min x0 (W - 1)) + 1) (Z.min x1 W);
        Z.max (Z.max 0 (Z.min y0 (H - 1)) + 1) (Z.min y1 H)]) →
  ∃ boxes,
    Client.extract_words_and_boxes int_pow_half text W H
    = Some (Client.findall_nonspace text, boxes)
    ∧ length boxes = length (Client.findall_nonspace text)
    ∧ Forall P boxes.
Proof.
  intros HP. unfold Client.extract_words_and_boxes.
  destruct (Client.findall_nonspace text) as [|word words] eqn:Hwords.
  { exists []. by repeat split. }
  rewrite bool_decide_eq_false_2 by done.
  set (ws := word :: words) in *.
  set (wpl := Z.max 1 (int_pow_half (Client.len_list ws))).
  rewrite (floordiv_some _ wpl) by lia. cbn [mbind option_bind].
  rewrite floordiv_some by lia. cbn [mbind option_bind].
  change (Client.max_of (Client.len <$> ws))
    with (Some (foldr Z.max (Client.len word) (Client.len <$> words))).
  cbn [mbind option_bind]. rewrite floordiv_some by lia.
  cbn [mbind option_bind].
  edestruct (box_loop_all P W H wpl) as (boxes & -> & Hlen & Hok);
    [lia | exact HP | constructor |].
  exists boxes. cbn [mbind option_bind]. by rewrite Hlen.
Qed.

End AnySize.

(** X10.  The estimate returns normally for every text and every image
    size, also zero and negative ones: it gives one box for each word
    found, and every box has a non-negative corner and a positive width
    and height.  For a width below one every box spans [0, 1]
    horizontally, and likewise for the height. *)
Theorem estimate_for_any_size (int_pow_half : Z → Z) (text : str)
    (image_width image_height : Z) :
  ∃ boxes,
    Client.extract_words_and_boxes int_pow_half text image_width image_height
    = Some (Client.findall_nonspace text, boxes)
    ∧ length boxes = length (Client.findall_nonspace text)
    ∧ Forall (λ box, ∃ x0 y0 x1 y1 : Z,
                box = [x0; y0; x1; y1]
                ∧ (0 ≤ x0 < x1)%Z ∧ (0 ≤ y0 < y1)%Z
                ∧ (image_width < 1 → x0 = 0 ∧ x1 = 1)%Z
                ∧ (image_height < 1 → y0 = 0 ∧ y1 = 1)%Z) boxes.
Proof.
  apply extract_all. intros x0 y0 x1 y1.
  eexists _, _, _, _. split; [done|]. lia.
Qed.

(** * The client's pipeline *)

Section PipelineFacts.

Context {R : Type}.
Variable int_pow_half : Z → Z.

(** Words and boxes of the same non-zero length pass both shape checks
    of the external-OCR predictor, which goes on to call the tokenizer. *)
Lemma server_accepts (words : list str) (boxes : list (list Z)) :
  words ≠ [] → length boxes = length words →
  LayoutLMv3.process_receipt words boxes
  = Tokenize words boxes (λ encoded_inputs,
      ProcessImage (λ image_inputs,
        LayoutLMv3.run_model encoded_inputs image_inputs)).
Proof.
  intros Hw Hlen. unfold LayoutLMv3.process_receipt.
  rewrite (bool_decide_eq_false_2 _ Hw).
  assert (Hb : boxes ≠ []).
  { intros ->. destruct words; [done|discriminate Hlen]. }
  rewrite (bool_decide_eq_false_2 _ Hb). cbn [orb].
  rewrite bool_decide_eq_false_2; [done|]. intros H. apply H. by symmetry.
Qed.

(** The function from the point where the text is a non-empty string. *)
Lemma run_with_text (w : Pipeline.world R) (image_path model text : str) :
  ∃ boxes,
    Client.extract_words_and_boxes int_pow_half text
      (Pipeline.image_size w).1 (Pipeline.image_size w).2
    = Some (Client.findall_nonspace text, boxes)
    ∧ length boxes = length (Client.findall_nonspace text)
    ∧ Pipeline.run w (Pipeline.with_text int_pow_half image_path model text)
      = if bool_decide (Client.findall_nonspace text = [])
        then ([Pipeline.CallOpenImage image_path],
              Pipeline.Returns
                (Pipeline.ErrorDict (lit "No text detected in image.")
                   (lit "No words extracted from OCR")))
        else ([Pipeline.CallOpenImage image_path;
               Pipeline.CallLayout model image_path
                 (Client.findall_nonspace text) boxes],
              Pipeline.Returns
                (Pipeline.ModelResult
                   (Pipeline.layout_answer w
                      (Client.findall_nonspace text) boxes))).
Proof.
  destruct (extract_all (λ _, True) int_pow_half text
              (Pipeline.image_size w).1 (Pipeline.image_size w).2)
    as (boxes & Hex & Hlen & _); [done|].
  exists boxes. split; [done|]. split; [done|].
  unfold Pipeline.with_text. cbn [Pipeline.run].
  destruct (Pipeline.image_size w) as [width height]. cbn [fst snd] in Hex.
  rewrite Hex. by case_bool_decide.
Qed.

End PipelineFacts.

(** X11.  Without an API token, unset or empty, the client raises the
    [ValueError] about [REPLICATE_API_TOKEN] and has called nothing but
    the environment: no model is run and the image is not opened. *)
Theorem token_is_required {R : Type} (int_pow_half : Z → Z)
    (w : Pipeline.world R) (image_path deepseekocr_model layoutlmv3_model : str) :
  Pipeline.api_token w = None ∨ Pipeline.api_token w = Some [] →
  Pipeline.run w
    (Pipeline.process_receipt int_pow_half image_path deepseekocr_model
       layoutlmv3_model)
  = ([Pipeline.CallGetenv (lit "REPLICATE_API_TOKEN")],
     Pipeline.Raises
       (Pipeline.ValueError
          (lit "REPLICATE_API_TOKEN environment variable not set"))).
Proof.
  intros H. unfold Pipeline.process_receipt. cbn [Pipeline.run].
  by destruct H as [-> | ->].
Qed.

Lemma token_is_required_witness :
  Pipeline.run
    (Pipeline.World (Some []) (Pipeline.OutStr (lit "ACME 9")) (100, 50)%Z
       (λ _ _, tt))
    (Pipeline.process_receipt Z.sqrt (lit "r.png") (lit "ocr") (lit "layout"))
  = ([Pipeline.CallGetenv (lit "REPLICATE_API_TOKEN")],
     Pipeline.Raises
       (Pipeline.ValueError
          (lit "REPLICATE_API_TOKEN environment variable not set"))).
Proof.
  apply (token_is_required Z.sqrt
           (Pipeline.World (Some []) (Pipeline.OutStr (lit "ACME 9")) (100, 50)%Z
              (λ _ _, tt))).
  right. reflexivity.
Defined.

(** The three ways the run can go once the token is there and the text is
    a string. *)
Lemma pipeline_cases {R : Type} (int_pow_half : Z → Z)
    (w : Pipeline.world R) (image_path ocr_model layout_model : str)
    (text : str) :
  Py.truthy (Pipeline.api_token w) = true →
  (Pipeline.ocr_answer w = Pipeline.OutStr text
   ∨ ∃ d, Pipeline.ocr_answer w = Pipeline.OutDict d
          ∧ d !! lit "text" = Some (VStr text)) →
  let outcome :=
    Pipeline.run w
      (Pipeline.process_receipt int_pow_half image_path ocr_model layout_model) in
  let start :=
    [Pipeline.CallGetenv (lit "REPLICATE_API_TOKEN");
     Pipeline.CallOcr ocr_model image_path] in
  (text = [] →
   outcome
   = (start,
      Pipeline.Returns
        (Pipeline.ErrorDict (lit "No text extracted from image.")
           (lit "OCR returned empty result"))))
  ∧ (text ≠ [] → Forall (λ c, Py.isspace c = true) text →
     outcome
     = (start ++ [Pipeline.CallOpenImage image_path],
        Pipeline.Returns
          (Pipeline.ErrorDict (lit "No text detected in image.")
             (lit "No words extracted from OCR"))))
  ∧ (¬ Forall (λ c, Py.isspace c = true) text →
     ∃ boxes,
       length boxes = length (Client.findall_nonspace text)
       ∧ outcome
         = (start ++ [Pipeline.CallOpenImage image_path;
                      Pipeline.CallLayout layout_model image_path
                        (Client.findall_nonspace text) boxes],
            Pipeline.Returns
              (Pipeline.ModelResult
                 (Pipeline.layout_answer w
                    (Client.findall_nonspace text) boxes)))).
Proof.
  intros Htok Hans outcome start.
  assert (Hrun : text ≠ [] →
    outcome
    = let '(calls, o) :=
        Pipeline.run w
          (Pipeline.with_text int_pow_half image_path layout_model text) in
      (start ++ calls, o)).
  { intros Hne. subst outcome. unfold Pipeline.process_receipt.
    cbn [Pipeline.run]. rewrite Htok. cbn [negb Pipeline.run].
    destruct Hans as [-> | (d & -> & ->)]; cbn [default];
      destruct text as [|c text]; try done;
      by destruct (Pipeline.run w _). }
  destruct (run_with_text int_pow_half w image_path layout_model text)
    as (boxes & _ & Hlen & Hwith).
  split; [|split].
  - intros ->. subst outcome. unfold Pipeline.process_receipt.
    cbn [Pipeline.run]. rewrite Htok. cbn [negb Pipeline.run].
    by destruct Hans as [-> | (d & -> & ->)].
  - intros Hne Hall. rewrite (Hrun Hne), Hwith.
    apply findall_nil in Hall. by rewrite bool_decide_eq_true_2.
  - intros Hnot. exists boxes. split; [done|].
    assert (Hne : text ≠ []) by (intros ->; apply Hnot; constructor).
    rewrite (Hrun Hne), Hwith.
    rewrite bool_decide_eq_false_2; [done|].
    intros Hnil. by apply findall_nil in Hnil.
Qed.

(** X12.  With a token and an OCR answer whose text is the string
    [text] (the answer itself, or the ["text"] entry of a dictionary):
    an empty text ends the run after the OCR call with the
    "No text extracted from image." dictionary; a text of whitespace only
    ends it after the image was opened with the "No text detected in
    image." dictionary; any other text makes exactly one call of the
    second model, with the words of the text and one box for each, and
    the model's result is returned as it is. *)
Theorem pipeline_outcome {R : Type} (int_pow_half : Z → Z)
    (w : Pipeline.world R) (image_path ocr_model layout_model : str)
    (text : str) :
  Py.truthy (Pipeline.api_token w) = true →
  (Pipeline.ocr_answer w = Pipeline.OutStr text
   ∨ ∃ d, Pipeline.ocr_answer w = Pipeline.OutDict d
          ∧ d !! lit "text" = Some (VStr text)) →
  let outcome :=
    Pipeline.run w
      (Pipeline.process_receipt int_pow_half image_path ocr_model layout_model) in
  let start :=
    [Pipeline.CallGetenv (lit "REPLICATE_API_TOKEN");
     Pipeline.CallOcr ocr_model image_path] in
  (text = [] →
   outcome
   = (start,
      Pipeline.Returns
        (Pipeline.ErrorDict (lit "No text extracted from image.")
           (lit "OCR returned empty result"))))
  ∧ (text ≠ [] → Forall (λ c, Py.isspace c = true) text →
     outcome
     = (start ++ [Pipeline.CallOpenImage image_path],
        Pipeline.Returns
          (Pipeline.ErrorDict (lit "No text detected in image.")
             (lit "No words extracted from OCR"))))
  ∧ (¬ Forall (λ c, Py.isspace c = true) text →
     ∃ boxes,
       length boxes = length (Client.findall_nonspace text)
       ∧ outcome
         = (start ++ [Pipeline.CallOpenImage image_path;
                      Pipeline.CallLayout layout_model image_path
                        (Client.findall_nonspace text) boxes],
            Pipeline.Returns
              (Pipeline.ModelResult
                 (Pipeline.layout_answer w
                    (Client.findall_nonspace text) boxes)))).
Proof. apply pipeline_cases. Qed.

Lemma pipeline_outcome_witness :
  ∃ boxes,
    length boxes = length (Client.findall_nonspace (lit "ACME 9"))
    ∧ Pipeline.run
        (Pipeline.World (Some (lit "r8_x")) (Pipeline.OutStr (lit "ACME 9"))
           (100, 50)%Z (λ words _, length words))
        (Pipeline.process_receipt Z.sqrt (lit "r.png") (lit "ocr") (lit "layout"))
      = ([Pipeline.CallGetenv (lit "REPLICATE_API_TOKEN");
          Pipeline.CallOcr (lit "ocr") (lit "r.png")]
         ++ [Pipeline.CallOpenImage (lit "r.png");
             Pipeline.CallLayout (lit "layout") (lit "r.png")
               (Client.findall_nonspace (lit "ACME 9")) boxes],
         Pipeline.Returns
           (Pipeline.ModelResult
              (length (Client.findall_nonspace (lit "ACME 9"))))).
Proof.
  apply (pipeline_outcome Z.sqrt
           (Pipeline.World (Some (lit "r8_x")) (Pipeline.OutStr (lit "ACME 9"))
              (100, 50)%Z (λ words _, length words))
           (lit "r.png") (lit "ocr") (lit "layout") (lit "ACME 9")
           eq_refl (or_introl eq_refl)).
  intros H. apply Forall_cons in H as [H _]. vm_compute in H. discriminate H.
Defined.

Section LayoutCall.

Context {R : Type}.
Variable int_pow_half : Z → Z.

(** Whatever the outside answers, a call of the second model carries the
    words of a string text, at least one, and as many boxes. *)
Lemma layout_call_shape (w : Pipeline.world R)
    (image_path ocr_model layout_model : str)
    (model path : str) (words : list str) (boxes : list (list Z)) :
  Pipeline.CallLayout model path words boxes
    ∈ (Pipeline.run w
         (Pipeline.process_receipt int_pow_half image_path ocr_model
            layout_model)).1 →
  model = layout_model ∧ path = image_path
  ∧ words ≠ [] ∧ length boxes = length words
  ∧ ∃ text, words = Client.findall_nonspace text.
Proof.
  assert (Hwith : ∀ (text : str) (start : list Pipeline.call),
    (∀ c, c ∈ start → ∀ m p ws bs, c ≠ Pipeline.CallLayout m p ws bs) →
    Pipeline.CallLayout model path words boxes
      ∈ (let '(calls, o) :=
           Pipeline.run w
             (Pipeline.with_text int_pow_half image_path layout_model text) in
         (start ++ calls, o)).1 →
    model = layout_model ∧ path = image_path
    ∧ words ≠ [] ∧ length boxes = length words
    ∧ ∃ text, words = Client.findall_nonspace text).
  { intros text start Hstart.
    destruct (run_with_text int_pow_half w image_path layout_model text)
      as (bs & _ & Hlen & ->).
    case_bool_decide as Hnil; cbn [fst]; intros Hin;
      apply elem_of_app in Hin as [Hin|Hin];
      try (by destruct (Hstart _ Hin model path words boxes)).
    - apply list_elem_of_singleton in Hin. discriminate Hin.
    - apply elem_of_cons in Hin as [Hin|Hin]; [discriminate Hin|].
      apply list_elem_of_singleton in Hin. injection Hin as -> -> -> ->.
      repeat split; try done. by exists text. }
  assert (Hstart : ∀ c,
    c ∈ [Pipeline.CallGetenv (lit "REPLICATE_API_TOKEN");
         Pipeline.CallOcr ocr_model image_path] →
    ∀ m p ws bs, c ≠ Pipeline.CallLayout m p ws bs).
  { intros c Hc m p ws bs ->.
    repeat (apply elem_of_cons in Hc as [Hc|Hc]; [discriminate Hc|]).
    by apply elem_of_nil in Hc. }
  assert (Hnone : ∀ calls : list Pipeline.call,
    (∀ c, c ∈ calls → ∀ m p ws bs, c ≠ Pipeline.CallLayout m p ws bs) →
    Pipeline.CallLayout model path words boxes ∈ calls →
    model = layout_model ∧ path = image_path
    ∧ words ≠ [] ∧ length boxes = length words
    ∧ ∃ text, words = Client.findall_nonspace text).
  { intros calls Hc Hin. by destruct (Hc _ Hin model path words boxes). }
  assert (Hlist : ∀ calls : list Pipeline.call,
    Forall (λ c, match c with Pipeline.CallLayout _ _ _ _ => False | _ => True end)
      calls →
    ∀ c, c ∈ calls → ∀ m p ws bs, c ≠ Pipeline.CallLayout m p ws bs).
  { intros calls Hall c Hc m p ws bs ->.
    by apply (proj1 (Forall_forall _ _) Hall) in Hc. }
  unfold Pipeline.process_receipt. cbn [Pipeline.run].
  destruct (Py.truthy (Pipeline.api_token w)); cbn [negb Pipeline.run fst];
    [|apply Hnone, Hlist; by repeat constructor].
  destruct (Pipeline.ocr_answer w) as [d|s|s].
  - destruct (d !! lit "text") as [[[|c text]| |[|]]|]; cbn [default];
      try (cbn [Pipeline.run fst]; apply Hnone, Hlist; by repeat constructor).
    intros Hin. eapply (Hwith (c :: text)); [exact Hstart|].
    by destruct (Pipeline.run w _).
  - destruct s as [|c text];
      [cbn [Pipeline.run fst]; apply Hnone, Hlist; by repeat constructor|].
    intros Hin. eapply (Hwith (c :: text)); [exact Hstart|].
    by destruct (Pipeline.run w _).
  - destruct s as [|c text];
      [cbn [Pipeline.run fst]; apply Hnone, Hlist; by repeat constructor|].
    intros Hin. eapply (Hwith (c :: text)); [exact Hstart|].
    by destruct (Pipeline.run w _).
Qed.

End LayoutCall.

(** X13.  Client and predictor fit together: whatever the environment,
    the OCR model and the image answer, every call of the second model
    goes to the model and image named by the caller and carries at least
    one word and exactly one box per word.  Such an input passes both
    shape checks of the external-OCR predictor, which goes on to call the
    tokenizer, so that neither its "No text provided." nor its
    count-mismatch result can come back. *)
Theorem layout_call_passes_checks {R : Type} (int_pow_half : Z → Z)
    (w : Pipeline.world R) (image_path ocr_model layout_model : str)
    (model path : str) (words : list str) (boxes : list (list Z)) :
  Pipeline.CallLayout model path words boxes
    ∈ (Pipeline.run w
         (Pipeline.process_receipt int_pow_half image_path ocr_model
            layout_model)).1 →
  model = layout_model ∧ path = image_path
  ∧ words ≠ [] ∧ length boxes = length words
  ∧ LayoutLMv3.process_receipt words boxes
    = Tokenize words boxes (λ encoded_inputs,
        ProcessImage (λ image_inputs,
          LayoutLMv3.run_model encoded_inputs image_inputs)).
Proof.
  intros Hin.
  destruct (layout_call_shape int_pow_half w image_path ocr_model layout_model
              model path words boxes Hin) as (-> & -> & Hw & Hlen & _).
  repeat split; try done. by apply server_accepts.
Qed.

Lemma layout_call_passes_checks_witness :
  LayoutLMv3.process_receipt [lit "ACME"; lit "9"]
    [[0; 0; 100; 25]; [0; 25; 25; 50]]%Z
  = Tokenize [lit "ACME"; lit "9"] [[0; 0; 100; 25]; [0; 25; 25; 50]]%Z
      (λ encoded_inputs,
        ProcessImage (λ image_inputs,
          LayoutLMv3.run_model encoded_inputs image_inputs)).
Proof.
  apply (layout_call_passes_checks Z.sqrt
           (Pipeline.World (Some (lit "r8_x")) (Pipeline.OutStr (lit "ACME 9"))
              (100, 50)%Z (λ _ _, tt))
           (lit "r.png") (lit "ocr") (lit "layout")
           (lit "layout") (lit "r.png")).
  vm_compute. repeat constructor.
Defined.

(** X14.  A text that is present but not a string never reaches the
    second model: a falsy one ends the run with the "No text extracted
    from image." dictionary right after the OCR call, a truthy one makes
    the client raise. *)
Theorem non_string_text {R : Type} (int_pow_half : Z → Z)
    (w : Pipeline.world R) (image_path ocr_model layout_model : str)
    (d : gmap (list N) pyval) :
  Py.truthy (Pipeline.api_token w) = true →
  Pipeline.ocr_answer w = Pipeline.OutDict d →
  let outcome :=
    Pipeline.run w
      (Pipeline.process_receipt int_pow_half image_path ocr_model layout_model) in
  let start :=
    [Pipeline.CallGetenv (lit "REPLICATE_API_TOKEN");
     Pipeline.CallOcr ocr_model image_path] in
  (d !! lit "text" = None ∨ d !! lit "text" = Some VFalsy →
   outcome
   = (start,
      Pipeline.Returns
        (Pipeline.ErrorDict (lit "No text extracted from image.")
           (lit "OCR returned empty result"))))
  ∧ (∀ sliceable, d !! lit "text" = Some (VTruthy sliceable) →
     outcome.2 = Pipeline.Raises Pipeline.NotAString
     ∧ outcome.1
       = start ++ (if sliceable then [Pipeline.CallOpenImage image_path]
                   else [])).
Proof.
  intros Htok Hans outcome start. subst outcome.
  unfold Pipeline.process_receipt. cbn [Pipeline.run].
  rewrite Htok. cbn [negb Pipeline.run]. rewrite Hans. split.
  - by intros [-> | ->].
  - intros sliceable ->. by destruct sliceable.
Qed.

Lemma non_string_text_witness :
  Pipeline.run
    (Pipeline.World (Some (lit "r8_x")) (Pipeline.OutDict ∅) (100, 50)%Z
       (λ _ _, tt))
    (Pipeline.process_receipt Z.sqrt (lit "r.png") (lit "ocr") (lit "layout"))
  = ([Pipeline.CallGetenv (lit "REPLICATE_API_TOKEN");
      Pipeline.CallOcr (lit "ocr") (lit "r.png")],
     Pipeline.Returns
       (Pipeline.ErrorDict (lit "No text extracted from image.")
          (lit "OCR returned empty result"))).
Proof.
  apply (non_string_text Z.sqrt
           (Pipeline.World (Some (lit "r8_x")) (Pipeline.OutDict ∅) (100, 50)%Z
              (λ _ _, tt))
           (lit "r.png") (lit "ocr") (lit "layout") ∅ eq_refl eq_refl).
  left. reflexivity.
Defined.

(** * The OCR predictor and the client *)

Section OcrText.

Lemma findall_strip (text : str) :
  Client.findall_nonspace (Py.strip text) = Client.findall_nonspace text.
Proof.
  destruct (strip_spec text) as ((pre & suf & Hs & Hpre & Hsuf) & _ & _).
  unfold Client.findall_nonspace. rewrite Hs at 2.
  rewrite (findall_go_leading pre _ Hpre).
  by rewrite (findall_go_trailing [] _ suf Hsuf).
Qed.

Lemma strip_not_space (text : str) :
  Py.strip text ≠ [] → ¬ Forall (λ c, Py.isspace c = true) (Py.strip text).
Proof.
  intros Hne Hall. destruct (strip_spec text) as (_ & Hhead & _).
  destruct (Py.strip text) as [|c t]; [done|].
  apply Forall_cons in Hall as [Hc _]. rewrite (Hhead c) in Hc; done.
Qed.

Lemma trimmed_rows (input_ids new_ids : list (list Z)) :
  length input_ids = length new_ids →
  zip_with (λ in_ids out_ids : list Z, drop (length in_ids) out_ids) input_ids
    (zip_with app input_ids new_ids)
  = new_ids.
Proof.
  revert new_ids. induction input_ids as [|i ins IH]; intros [|n news] Hlen;
    try done.
  simpl. rewrite drop_app_length. f_equal. apply IH. by injection Hlen.
Qed.

End OcrText.

(** X15.  When the generated rows are the prompt rows each followed by
    new ids, only the new ids reach the decoder, and the text returned is
    the first decoded text without its outer whitespace; with no row at
    all the predictor raises. *)
Theorem prompt_is_cut_off (input_ids new_ids : list (list Z))
    (batch_decode : list (list Z) → list str) :
  length input_ids = length new_ids →
  DeepSeekOCR.predict input_ids (zip_with app input_ids new_ids) batch_decode
  = match batch_decode new_ids with
    | [] => None
    | output_text :: _ => Some {[ lit "text" := VStr (Py.strip output_text) ]}
    end
  ∧ ∀ d s, DeepSeekOCR.predict input_ids (zip_with app input_ids new_ids)
             batch_decode = Some d →
           d !! lit "text" = Some (VStr s) →
           (∀ c, head s = Some c → Py.isspace c = false)
           ∧ (∀ c, last s = Some c → Py.isspace c = false).
Proof.
  intros Hlen. unfold DeepSeekOCR.predict. rewrite (trimmed_rows _ _ Hlen).
  split; [done|]. intros d s.
  destruct (batch_decode new_ids) as [|t ts]; [done|].
  intros [= <-]. rewrite lookup_singleton_eq. intros [= <-].
  destruct (strip_spec t) as (_ & Hh & Hl). by split.
Qed.

Lemma prompt_is_cut_off_witness :
  DeepSeekOCR.predict [[1; 2; 3]%Z] (zip_with app [[1; 2; 3]%Z] [[7; 8]%Z])
    (λ rows, (λ row, if bool_decide (row = [7; 8]%Z) then lit " ACME 9 "
                     else lit "prompt") <$> rows)
  = Some {[ lit "text" := VStr (lit "ACME 9") ]}.
Proof.
  etransitivity.
  - apply (prompt_is_cut_off [[1; 2; 3]%Z] [[7; 8]%Z]). reflexivity.
  - vm_compute. reflexivity.
Defined.

(** X16.  Fed with what the OCR predictor returns, the client never
    answers "No text detected in image.": if the decoded text is all
    whitespace the run ends after the OCR call with "No text extracted
    from image."; otherwise the second model is called with the words of
    the decoded text. *)
Theorem ocr_answer_is_used {R : Type} (int_pow_half : Z → Z)
    (w : Pipeline.world R) (image_path ocr_model layout_model : str)
    (input_ids generated_ids : list (list Z))
    (batch_decode : list (list Z) → list str) (d : gmap (list N) pyval) :
  Py.truthy (Pipeline.api_token w) = true →
  DeepSeekOCR.predict input_ids generated_ids batch_decode = Some d →
  Pipeline.ocr_answer w = Pipeline.OutDict d →
  let outcome :=
    Pipeline.run w
      (Pipeline.process_receipt int_pow_half image_path ocr_model layout_model) in
  let start :=
    [Pipeline.CallGetenv (lit "REPLICATE_API_TOKEN");
     Pipeline.CallOcr ocr_model image_path] in
  ∃ output_text,
    d = {[ lit "text" := VStr (Py.strip output_text) ]}
    ∧ (Forall (λ c, Py.isspace c = true) output_text →
       outcome
       = (start,
          Pipeline.Returns
            (Pipeline.ErrorDict (lit "No text extracted from image.")
               (lit "OCR returned empty result"))))
    ∧ (¬ Forall (λ c, Py.isspace c = true) output_text →
       ∃ boxes,
         length boxes = length (Client.findall_nonspace output_text)
         ∧ outcome
           = (start ++ [Pipeline.CallOpenImage image_path;
                        Pipeline.CallLayout layout_model image_path
                          (Client.findall_nonspace output_text) boxes],
              Pipeline.Returns
                (Pipeline.ModelResult
                   (Pipeline.layout_answer w
                      (Client.findall_nonspace output_text) boxes)))).
Proof.
  intros Htok Hpred Hans outcome start.
  unfold DeepSeekOCR.predict in Hpred.
  destruct (batch_decode _) as [|t ts]; [done|]. injection Hpred as <-.
  exists t. split; [done|].
  destruct (pipeline_cases int_pow_half w image_path ocr_model layout_model
              (Py.strip t) Htok) as (Hempty & _ & Hwords).
  { right. eexists. split; [exact Hans|]. apply lookup_singleton_eq. }
  split.
  - intros Hall. apply Hempty. by apply strip_nil.
  - intros Hnot. rewrite <- (findall_strip t). apply Hwords.
    apply strip_not_space. intros Hnil. by apply strip_nil in Hnil.
Qed.

Lemma ocr_answer_is_used_witness :
  ∃ output_text,
    ({[ lit "text" := VStr (lit "ACME 9") ]} : gmap (list N) pyval)
    = {[ lit "text" := VStr (Py.strip output_text) ]}
    ∧ (Forall (λ c, Py.isspace c = true) output_text →
       Pipeline.run
         (Pipeline.World (Some (lit "r8_x"))
            (Pipeline.OutDict {[ lit "text" := VStr (lit "ACME 9") ]})
            (100, 50)%Z (λ _ _, tt))
         (Pipeline.process_receipt Z.sqrt (lit "r.png") (lit "ocr")
            (lit "layout"))
       = ([Pipeline.CallGetenv (lit "REPLICATE_API_TOKEN");
           Pipeline.CallOcr (lit "ocr") (lit "r.png")],
          Pipeline.Returns
            (Pipeline.ErrorDict (lit "No text extracted from image.")
               (lit "OCR returned empty result"))))
    ∧ (¬ Forall (λ c, Py.isspace c = true) output_text →
       ∃ boxes,
         length boxes = length (Client.findall_nonspace output_text)
         ∧ Pipeline.run
             (Pipeline.World (Some (lit "r8_x"))
                (Pipeline.OutDict {[ lit "text" := VStr (lit "ACME 9") ]})
                (100, 50)%Z (λ _ _, tt))
             (Pipeline.process_receipt Z.sqrt (lit "r.png") (lit "ocr")
                (lit "layout"))
           = ([Pipeline.CallGetenv (lit "REPLICATE_API_TOKEN");
               Pipeline.CallOcr (lit "ocr") (lit "r.png")]
              ++ [Pipeline.CallOpenImage (lit "r.png");
                  Pipeline.CallLayout (lit "layout") (lit "r.png")
                    (Client.findall_nonspace output_text) boxes],
              Pipeline.Returns (Pipeline.ModelResult tt))).
Proof.
  apply (ocr_answer_is_used Z.sqrt
           (Pipeline.World (Some (lit "r8_x"))
              (Pipeline.OutDict {[ lit "text" := VStr (lit "ACME 9") ]})
              (100, 50)%Z (λ _ _, tt))
           (lit "r.png") (lit "ocr") (lit "layout")
           [[1; 2; 3]%Z] [[1; 2; 3; 7; 8]%Z]
           (λ rows, (λ _, lit " ACME 9 ") <$> rows)).
  - reflexivity.
  - vm_compute. reflexivity.
  - reflexivity.
Defined.

(** * The OCR step of the first predictor *)

Section EasyOcr.

Lemma int_of_mono (x y : Q) :
  (x <= y)%Q → (PredictOcr.int_of x ≤ PredictOcr.int_of y)%Z.
Proof.
  unfold Qle, PredictOcr.int_of. intros H.
  rewrite <- (Z.quot_mul_cancel_r (Qnum x) (Z.pos (Qden x)) (Z.pos (Qden y)))
    by done.
  rewrite <- (Z.quot_mul_cancel_r (Qnum y) (Z.pos (Qden y)) (Z.pos (Qden x)))
    by done.
  rewrite (Z.mul_comm (Z.pos (Qden y)) (Z.pos (Qden x))).
  apply Z.quot_le_mono; [lia|exact H].
Qed.

Lemma fold_min_spec (rest : list Q) (x : Q) :
  let m := fold_left (λ m y, if Qle_bool m y then m else y) rest x in
  (m <= x)%Q ∧ Forall (λ y, (m <= y)%Q) rest.
Proof.
  revert x. induction rest as [|y rest IH]; intros x; cbn [fold_left].
  - split; [apply Qle_refl|constructor].
  - destruct (Qle_bool x y) eqn:E.
    + destruct (IH x) as [H1 H2]. apply Qle_bool_iff in E.
      split; [done|]. constructor; [|done]. by eapply Qle_trans.
    + destruct (IH y) as [H1 H2].
      assert (Hyx : (y <= x)%Q).
      { apply Qlt_le_weak, Qnot_le_lt. intros Hxy.
        apply Qle_bool_iff in Hxy. congruence. }
      split; [by eapply Qle_trans|]. by constructor.
Qed.

Lemma fold_max_spec (rest : list Q) (x : Q) :
  let m := fold_left (λ m y, if Qle_bool y m then m else y) rest x in
  (x <= m)%Q ∧ Forall (λ y, (y <= m)%Q) rest.
Proof.
  revert x. induction rest as [|y rest IH]; intros x; cbn [fold_left].
  - split; [apply Qle_refl|constructor].
  - destruct (Qle_bool y x) eqn:E.
    + destruct (IH x) as [H1 H2]. apply Qle_bool_iff in E.
      split; [done|]. constructor; [|done]. by eapply Qle_trans.
    + destruct (IH y) as [H1 H2].
      assert (Hxy : (x <= y)%Q).
      { apply Qlt_le_weak, Qnot_le_lt. intros Hyx.
        apply Qle_bool_iff in Hyx. congruence. }
      split; [by eapply Qle_trans|]. by constructor.
Qed.

(** On a non-empty list [min] and [max] return a lower and an upper
    bound of all its elements. *)
Lemma min_max_bounds (xs : list Q) :
  xs ≠ [] →
  ∃ lo hi,
    PredictOcr.min_of xs = Some lo ∧ PredictOcr.max_of xs = Some hi
    ∧ Forall (λ x, (lo <= x)%Q ∧ (x <= hi)%Q) xs.
Proof.
  destruct xs as [|x rest]; [done|]. intros _.
  eexists _, _. split; [done|]. split; [done|].
  destruct (fold_min_spec rest x) as [Hm1 Hm2].
  destruct (fold_max_spec rest x) as [HM1 HM2].
  constructor; [done|].
  apply Forall_forall. intros y Hy.
  split; [by apply (proj1 (Forall_forall _ _) Hm2)
         |by apply (proj1 (Forall_forall _ _) HM2)].
Qed.

End EasyOcr.

Section EasyOcrBoxes.

Lemma item_box (item : PredictOcr.ocr_item) :
  PredictOcr.bbox item ≠ [] →
  ∃ x0 y0 x1 y1 : Q,
    PredictOcr.min_of (PredictOcr.bbox item).*1 = Some x0
    ∧ PredictOcr.min_of (PredictOcr.bbox item).*2 = Some y0
    ∧ PredictOcr.max_of (PredictOcr.bbox item).*1 = Some x1
    ∧ PredictOcr.max_of (PredictOcr.bbox item).*2 = Some y1
    ∧ PredictOcr.encloses item
        [PredictOcr.int_of x0; PredictOcr.int_of y0;
         PredictOcr.int_of x1; PredictOcr.int_of y1].
Proof.
  intros Hne.
  destruct (min_max_bounds (PredictOcr.bbox item).*1) as (x0 & x1 & Hx0 & Hx1 & Hx).
  { by destruct (PredictOcr.bbox item). }
  destruct (min_max_bounds (PredictOcr.bbox item).*2) as (y0 & y1 & Hy0 & Hy1 & Hy).
  { by destruct (PredictOcr.bbox item). }
  exists x0, y0, x1, y1. repeat (split; [done|]).
  assert (Hpts : Forall (λ point : Q * Q,
            ((x0 <= point.1)%Q ∧ (point.1 <= x1)%Q)
            ∧ ((y0 <= point.2)%Q ∧ (point.2 <= y1)%Q)) (PredictOcr.bbox item)).
  { apply Forall_forall. intros pt Hpt. split.
    - apply (proj1 (Forall_forall _ _) Hx). by apply list_elem_of_fmap_2.
    - apply (proj1 (Forall_forall _ _) Hy). by apply list_elem_of_fmap_2. }
  eexists _, _, _, _. split; [done|].
  destruct (PredictOcr.bbox item) as [|pt pts] eqn:Hb; [done|].
  pose proof Hpts as Hall.
  apply Forall_cons in Hpts as [[[Hx0p Hx1p] [Hy0p Hy1p]] _].
  split; [apply int_of_mono; by eapply Qle_trans|].
  split; [apply int_of_mono; by eapply Qle_trans|].
  eapply Forall_impl; [exact Hall|].
  intros p [[? ?] [? ?]]. repeat split; by apply int_of_mono.
Qed.

Lemma collect_boxes_ok (results : list PredictOcr.ocr_item)
    (words : list str) (boxes : list (list Z)) :
  Forall (λ item, PredictOcr.bbox item ≠ []) results →
  ∃ new,
    PredictOcr.collect_boxes results words boxes
    = Some (words ++ (PredictOcr.text <$> results), boxes ++ new)
    ∧ Forall2 PredictOcr.encloses results new.
Proof.
  intros H. revert words boxes.
  induction H as [|item results Hne _ IH]; intros words boxes.
  - exists []. simpl. by rewrite !app_nil_r.
  - destruct (item_box item Hne)
      as (x0 & y0 & x1 & y1 & Hx0 & Hy0 & Hx1 & Hy1 & Hbox).
    cbn [PredictOcr.collect_boxes]. rewrite Hx0, Hy0, Hx1, Hy1.
    cbn [mbind option_bind].
    destruct (IH (words ++ [PredictOcr.text item])
                (boxes ++ [[PredictOcr.int_of x0; PredictOcr.int_of y0;
                            PredictOcr.int_of x1; PredictOcr.int_of y1]]))
      as (new & -> & Hnew).
    eexists (_ :: new). split.
    + rewrite fmap_cons, <- !app_assoc. done.
    + by constructor.
Qed.

Lemma collect_boxes_fails (results : list PredictOcr.ocr_item)
    (words : list str) (boxes : list (list Z)) :
  Exists (λ item, PredictOcr.bbox item = []) results →
  PredictOcr.collect_boxes results words boxes = None.
Proof.
  intros H. revert words boxes.
  induction H as [item results Hnil|item results _ IH]; intros words boxes.
  - cbn [PredictOcr.collect_boxes]. by rewrite Hnil.
  - cbn [PredictOcr.collect_boxes].
    destruct (PredictOcr.min_of (PredictOcr.bbox item).*1);
      cbn [mbind option_bind]; [|done].
    destruct (PredictOcr.min_of (PredictOcr.bbox item).*2);
      cbn [mbind option_bind]; [|done].
    destruct (PredictOcr.max_of (PredictOcr.bbox item).*1);
      cbn [mbind option_bind]; [|done].
    destruct (PredictOcr.max_of (PredictOcr.bbox item).*2);
      cbn [mbind option_bind]; [|done].
    apply IH.
Qed.

End EasyOcrBoxes.

(** X17.  [extract_text_with_boxes] raises when the OCR reader is missing
    or when some entry has no corner point.  Otherwise it returns the
    texts of the entries in their order and one box for each entry, in
    the same order; each box has ordered corners and encloses all corner
    points of its entry, truncated to integers. *)
Theorem boxes_from_entries (ocr_reader : option (list PredictOcr.ocr_item)) :
  (ocr_reader = None → PredictOcr.extract_text_with_boxes ocr_reader = None)
  ∧ (∀ results, ocr_reader = Some results →
       Exists (λ item, PredictOcr.bbox item = []) results →
       PredictOcr.extract_text_with_boxes ocr_reader = None)
  ∧ (∀ results, ocr_reader = Some results →
       Forall (λ item, PredictOcr.bbox item ≠ []) results →
       ∃ boxes,
         PredictOcr.extract_text_with_boxes ocr_reader
         = Some (PredictOcr.text <$> results, boxes)
         ∧ Forall2 PredictOcr.encloses results boxes).
Proof.
  split; [by intros ->|]. split.
  - intros results -> H. by apply collect_boxes_fails.
  - intros results -> H.
    destruct (collect_boxes_ok results [] [] H) as (new & Hc & Hnew).
    exists new. by split.
Qed.

Lemma boxes_from_entries_witness :
  ∃ boxes,
    PredictOcr.extract_text_with_boxes
      (Some [PredictOcr.OcrItem
               [(12 # 1, 7 # 2); (95 # 2, 3 # 1); (48 # 1, 20 # 1); (11 # 1, 41 # 2)]%Q
               (lit "ACME") (9 # 10)%Q])
    = Some (PredictOcr.text
              <$> [PredictOcr.OcrItem
                     [(12 # 1, 7 # 2); (95 # 2, 3 # 1); (48 # 1, 20 # 1);
                      (11 # 1, 41 # 2)]%Q
                     (lit "ACME") (9 # 10)%Q], boxes)
    ∧ Forall2 PredictOcr.encloses
        [PredictOcr.OcrItem
           [(12 # 1, 7 # 2); (95 # 2, 3 # 1); (48 # 1, 20 # 1); (11 # 1, 41 # 2)]%Q
           (lit "ACME") (9 # 10)%Q]
        boxes.
Proof.
  destruct (boxes_from_entries
              (Some [PredictOcr.OcrItem
                       [(12 # 1, 7 # 2); (95 # 2, 3 # 1); (48 # 1, 20 # 1);
                        (11 # 1, 41 # 2)]%Q
                       (lit "ACME") (9 # 10)%Q])) as (_ & _ & H).
  apply (H _ eq_refl). repeat constructor. discriminate.
Defined.

(** X18.  The first predictor, its OCR step carried out: a missing
    reader or an entry without corner points makes it raise; no entry at
    all makes it return "No text detected in image." with an empty
    mapping and without calling the tokenizer or the model; otherwise it
    calls the tokenizer on the entries' texts and as many boxes, then the
    image processor.  When the four tensors it reads are in their
    answers, it calls the model on them once and returns the decoded
    result whatever the predictions, label names and tokens are; when
    the encoding has no ["bbox"] it raises before the model is called. *)
Theorem first_predictor_outcome (ocr_reader : option (list PredictOcr.ocr_item)) :
  (ocr_reader = None → PredictOcr.process_receipt ocr_reader = Raise)
  ∧ (ocr_reader = Some [] →
     PredictOcr.process_receipt ocr_reader
     = Ret (Result ∅ (lit "No text detected in image.") [] []))
  ∧ (∀ results, ocr_reader = Some results → results ≠ [] →
       (Exists (λ item, PredictOcr.bbox item = []) results →
        PredictOcr.process_receipt ocr_reader = Raise)
       ∧ (Forall (λ item, PredictOcr.bbox item ≠ []) results →
          ∃ boxes,
            PredictOcr.process_receipt ocr_reader
            = Tokenize (PredictOcr.text <$> results) boxes (λ encoded_inputs,
                ProcessImage (λ image_inputs,
                  Predict.run_model encoded_inputs image_inputs))
            ∧ length boxes = length (PredictOcr.text <$> results)))
  ∧ (∀ (encoded_inputs image_inputs : gmap (list N) tensor)
       (input_ids bbox attention_mask pixel_values : tensor),
       encoded_inputs !! lit "input_ids" = Some input_ids →
       encoded_inputs !! lit "bbox" = Some bbox →
       encoded_inputs !! lit "attention_mask" = Some attention_mask →
       image_inputs !! lit "pixel_values" = Some pixel_values →
       Predict.run_model encoded_inputs image_inputs
       = Infer input_ids bbox attention_mask pixel_values (λ predictions,
           Id2Label (λ id2label,
             ConvertIds input_ids (λ tokens,
               Predict.decode tokens
                 ((λ pred, default (lit "O") (id2label !! pred))
                    <$> predictions)))))
  ∧ (∀ tokens predicted_labels,
       ∃ r, Predict.decode tokens predicted_labels = Ret r
            ∧ r_entities r
              = Predict.group_entities (zip tokens predicted_labels))
  ∧ (∀ encoded_inputs image_inputs : gmap (list N) tensor,
       encoded_inputs !! lit "bbox" = None →
       Predict.run_model encoded_inputs image_inputs = Raise).
Proof.
  split; [|split; [|split; [|split; [|split]]]].
  - by intros ->.
  - by intros ->.
  - unfold PredictOcr.process_receipt, Predict.process_receipt.
    intros results -> Hne. split.
    + intros H. cbn [PredictOcr.extract_text_with_boxes].
      by rewrite (collect_boxes_fails results [] [] H).
    + intros H. cbn [PredictOcr.extract_text_with_boxes].
      destruct (collect_boxes_ok results [] [] H) as (boxes & -> & Hbox).
      cbn [app]. rewrite bool_decide_eq_false_2 by (by destruct results).
      exists boxes. split; [done|].
      apply Forall2_length in Hbox. by rewrite length_fmap.
  - apply run_model_with_tensors.
  - intros tokens labels. rewrite decode_returns. by eexists.
  - intros e i H. rewrite <- run_model_agree. by apply run_model_without_bbox.
Qed.

Lemma first_predictor_outcome_witness :
  PredictOcr.process_receipt (Some [])
  = Ret (Result ∅ (lit "No text detected in image.") [] []).
Proof.
  destruct (first_predictor_outcome (Some [])) as (_ & H & _).
  apply H. reflexivity.
Defined.

(** * Rows of the estimated boxes *)

Section RowOrder.

Lemma box_loop_rows (W H wpl lh cw : Z) :
  wpl ≠ 0%Z →
  ∀ (words : list str) (i : Z) (boxes boxes' : list (list Z)),
    Client.box_loop W H wpl lh cw i words boxes = Some boxes' →
    ∃ new,
      boxes' = boxes ++ new
      ∧ ∀ (j : nat) (box : list Z),
          new !! j = Some box →
          Rows.top box = Some (Rows.row_top H lh ((i + Z.of_nat j) / wpl)).
Proof.
  intros Hwpl. induction words as [|word words IH]; intros i boxes boxes'.
  - intros [= <-]. exists []. split; [by rewrite app_nil_r|]. by intros j box.
  - cbn [Client.box_loop].
    rewrite (floordiv_some _ _ Hwpl), (pymod_some _ _ Hwpl).
    cbn [mbind option_bind]. intros Hloop.
    destruct (IH _ _ _ Hloop) as (new & -> & Hnew).
    eexists (_ :: new). split; [by rewrite <- app_assoc|].
    intros [|j] box.
    + intros [= <-]. unfold Rows.top, Rows.row_top. cbn [lookup list_lookup].
      by rewrite Z.add_0_r.
    + cbn [lookup list_lookup]. intros Hj. rewrite (Hnew j box Hj).
      do 3 f_equal. lia.
Qed.

Lemma extract_rows (int_pow_half : Z → Z) (text : str) (W H : Z)
    (words : list str) (boxes : list (list Z)) :
  Client.extract_words_and_boxes int_pow_half text W H = Some (words, boxes) →
  ∃ wpl lh : Z,
    (1 ≤ wpl)%Z ∧ (lh < 0 → H ≤ 0)%Z
    ∧ ∀ (j : nat) (box : list Z),
        boxes !! j = Some box →
        Rows.top box = Some (Rows.row_top H lh (Z.of_nat j / wpl)).
Proof.
  unfold Client.extract_words_and_boxes.
  destruct (Client.findall_nonspace text) as [|word ws] eqn:Hwords.
  { intros [= <- <-]. exists 1%Z, 0%Z. split; [lia|]. split; [lia|].
    by intros j box. }
  rewrite bool_decide_eq_false_2 by done.
  set (all := word :: ws) in *.
  set (wpl := Z.max 1 (int_pow_half (Client.len_list all))).
  rewrite (floordiv_some _ wpl) by lia. cbn [mbind option_bind].
  rewrite floordiv_some by lia. cbn [mbind option_bind].
  change (Client.max_of (Client.len <$> all))
    with (Some (foldr Z.max (Client.len word) (Client.len <$> ws))).
  cbn [mbind option_bind]. rewrite floordiv_some by lia.
  cbn [mbind option_bind].
  destruct (Client.box_loop _ _ _ _ _ _ _ _) as [bs|] eqn:Hloop; [|done].
  cbn [mbind option_bind]. intros [= <- <-].
  destruct (box_loop_rows _ _ wpl _ _ ltac:(lia) _ _ _ _ Hloop)
    as (new & -> & Hnew).
  exists wpl, (H / Z.max ((Client.len_list all + wpl - 1) / wpl) 1)%Z.
  split; [lia|]. split.
  - intros Hneg. destruct (Z.le_gt_cases H 0) as [HH|HH]; [done|].
    assert (0 ≤ H / Z.max ((Client.len_list all + wpl - 1) / wpl) 1)%Z
      by (apply Z.div_pos; lia).
    lia.
  - intros j box Hj. rewrite (Hnew j box Hj). by rewrite Z.add_0_l.
Qed.

Lemma row_top_mono (H lh l1 l2 : Z) :
  (l1 ≤ l2)%Z → (lh < 0 → H ≤ 0)%Z →
  (Rows.row_top H lh l1 ≤ Rows.row_top H lh l2)%Z.
Proof.
  intros Hl Hsign. unfold Rows.row_top.
  destruct (Z.le_gt_cases H 0) as [HH|HH]; [lia|].
  assert (0 ≤ lh)%Z by lia.
  assert (l1 * lh ≤ l2 * lh)%Z by (by apply Z.mul_le_mono_nonneg_r).
  lia.
Qed.

End RowOrder.

(** X19.  The estimate keeps the reading order from top to bottom: of
    two boxes it returns, the one of the later word never starts higher
    than the one of the earlier word, for every text and image size. *)
Theorem later_words_not_higher (int_pow_half : Z → Z) (text : str)
    (image_width image_height : Z) (words : list str)
    (boxes : list (list Z)) (i j : nat) (box_i box_j : list Z) :
  Client.extract_words_and_boxes int_pow_half text image_width image_height
  = Some (words, boxes) →
  i ≤ j → boxes !! i = Some box_i → boxes !! j = Some box_j →
  ∃ top_i top_j : Z,
    Rows.top box_i = Some top_i ∧ Rows.top box_j = Some top_j
    ∧ (top_i ≤ top_j)%Z.
Proof.
  intros Hex Hij Hi Hj.
  destruct (extract_rows _ _ _ _ _ _ Hex) as (wpl & lh & Hwpl & Hsign & Htop).
  eexists _, _. split; [by apply Htop|]. split; [by apply Htop|].
  apply row_top_mono; [|done]. apply Z.div_le_mono; lia.
Qed.

Lemma later_words_not_higher_witness :
  ∃ top_i top_j : Z,
    Rows.top [0; 0; 66; 16]%Z = Some top_i
    ∧ Rows.top [66; 16; 99; 32]%Z = Some top_j ∧ (top_i ≤ top_j)%Z.
Proof.
  apply (later_words_not_higher Z.sqrt (lit " ab  cde f  g h") 100 50
           [lit "ab"; lit "cde"; lit "f"; lit "g"; lit "h"]
           [[0; 0; 66; 16]; [99; 0; 100; 16]; [0; 16; 33; 32];
            [66; 16; 99; 32]; [0; 32; 33; 48]]%Z 0 3).
  - vm_compute. reflexivity.
  - lia.
  - reflexivity.
  - reflexivity.
Defined.

(** * Further instances *)

Lemma clean_is_clean_witness :
  Py.isspace 65%N = false.
Proof.
  apply (proj1 (proj2 (clean_is_clean (G_dot ++ lit " ACME" ++ G_dot)))).
  vm_compute. reflexivity.
Defined.

Lemma estimate_for_any_size_witness :
  ∃ boxes,
    Client.extract_words_and_boxes Z.sqrt (lit "ACME 9") 0 (-3)
    = Some (Client.findall_nonspace (lit "ACME 9"), boxes)
    ∧ length boxes = length (Client.findall_nonspace (lit "ACME 9"))
    ∧ Forall (λ box, ∃ x0 y0 x1 y1 : Z,
                box = [x0; y0; x1; y1]
                ∧ (0 ≤ x0 < x1)%Z ∧ (0 ≤ y0 < y1)%Z
                ∧ (0 < 1 → x0 = 0 ∧ x1 = 1)%Z
                ∧ (-3 < 1 → y0 = 0 ∧ y1 = 1)%Z) boxes.
Proof.
  apply (estimate_for_any_size Z.sqrt (lit "ACME 9") 0 (-3)).
Defined.
